(** * kloppy: event model, coordinate transformation and derived state

    A shallow embedding of [kloppy/domain/models/event.py] together with
    the dataset-level services it delegates to ([transform], [add_state]).

    Conventions.
    - Python exceptions are modelled by the error monad [outcome].
    - Python [float]s are binary64 floating-point numbers ([float]),
      with the rounding of every operation.
    - Python [str]s are modelled by [string]; [upper] acts on the ASCII
      letters only.
    - Python [dict]s with string keys are [gmap string _]. *)

From Stdlib Require Import ZArith QArith Qcanon Qround String Ascii List Lia Bool.
From Stdlib Require Import Floats.
From stdpp Require Import base option list gmap strings.

Local Open Scope string_scope.
Local Open Scope list_scope.

(** ** Exceptions and results *)

Inductive exn : Type :=
| OrphanedRecordError
| InvalidFilterError
| ConfigurationError
| UnresolvableOrientationError
| DanglingReference.

Inductive outcome (A : Type) : Type :=
| Ok (a : A)
| Raise (e : exn).
Arguments Ok {A} a.
Arguments Raise {A} e.

Definition obind {A B} (m : outcome A) (k : A -> outcome B) : outcome B :=
  match m with
  | Ok a => k a
  | Raise e => Raise e
  end.

Notation "'let*' x := m 'in' k" := (obind m (fun x => k))
  (at level 10, x pattern, m at level 100, k at level 200).

Fixpoint omapM {A B} (f : A -> outcome B) (l : list A) : outcome (list B) :=
  match l with
  | [] => Ok []
  | a :: l' =>
      let* b := f a in
      let* bs := omapM f l' in
      Ok (b :: bs)
  end.

(** ** Strings: the two [str] methods used by [Event.matches] *)

Module Str.

(** [c.upper()] for one ASCII character. *)
Definition upper_ascii (c : ascii) : ascii :=
  let n := nat_of_ascii c in
  if (97 <=? n)%nat && (n <=? 122)%nat then ascii_of_nat (n - 32) else c.

(** [s.upper()]. Characters outside ASCII are left as they are: the
    model covers filters written in ASCII. *)
Fixpoint upper (s : string) : string :=
  match s with
  | EmptyString => EmptyString
  | String c s' => String (upper_ascii c) (upper s')
  end.

(** [s.split(sep)] for a one-character separator: always at least one
    part; adjacent separators give empty parts. *)
Fixpoint split (sep : ascii) (s : string) : list string :=
  match s with
  | EmptyString => [EmptyString]
  | String c s' =>
      if Ascii.eqb c sep then EmptyString :: split sep s'
      else match split sep s' with
           | p :: ps => String c p :: ps
           | [] => [String c EmptyString]
           end
  end.

(** Truth value of a [str]: non-empty. *)
Definition truthy (s : string) : bool :=
  match s with EmptyString => false | _ => true end.

(** Number of occurrences of [sep]. *)
Fixpoint count (sep : ascii) (s : string) : nat :=
  match s with
  | EmptyString => 0
  | String c s' => (if Ascii.eqb c sep then 1 else 0) + count sep s'
  end.

End Str.

(** ** Enumerations

    [Enum.__getitem__] looks a member up by its *name*; every enum below
    carries its member table. *)

Definition getitem {A} (members : list (string * A)) (name : string) : option A :=
  snd <$> List.find (fun m => String.eqb (fst m) name) members.

Module ShotResult.
Inductive t := GOAL | OFF_TARGET | POST | BLOCKED | SAVED | OWN_GOAL.
Definition members : list (string * t) :=
  [("GOAL", GOAL); ("OFF_TARGET", OFF_TARGET); ("POST", POST);
   ("BLOCKED", BLOCKED); ("SAVED", SAVED); ("OWN_GOAL", OWN_GOAL)].
Definition is_success (r : t) : bool :=
  match r with GOAL => true | _ => false end.
#[global] Instance eq_dec : EqDecision t.
Proof. solve_decision. Defined.
End ShotResult.

Module PassResult.
Inductive t := COMPLETE | INCOMPLETE | OUT | OFFSIDE.
Definition members : list (string * t) :=
  [("COMPLETE", COMPLETE); ("INCOMPLETE", INCOMPLETE); ("OUT", OUT);
   ("OFFSIDE", OFFSIDE)].
Definition is_success (r : t) : bool :=
  match r with COMPLETE => true | _ => false end.
#[global] Instance eq_dec : EqDecision t.
Proof. solve_decision. Defined.
End PassResult.

Module TakeOnResult.
Inductive t := COMPLETE | INCOMPLETE | OUT.
Definition members : list (string * t) :=
  [("COMPLETE", COMPLETE); ("INCOMPLETE", INCOMPLETE); ("OUT", OUT)].
Definition is_success (r : t) : bool :=
  match r with COMPLETE => true | _ => false end.
#[global] Instance eq_dec : EqDecision t.
Proof. solve_decision. Defined.
End TakeOnResult.

Module CarryResult.
Inductive t := COMPLETE | INCOMPLETE.
Definition members : list (string * t) :=
  [("COMPLETE", COMPLETE); ("INCOMPLETE", INCOMPLETE)].
Definition is_success (r : t) : bool :=
  match r with COMPLETE => true | _ => false end.
#[global] Instance eq_dec : EqDecision t.
Proof. solve_decision. Defined.
End CarryResult.

(** A value of one of the [ResultType] subclasses. *)
Module ResultType.
Inductive t :=
| Shot (r : ShotResult.t)
| Pass (r : PassResult.t)
| TakeOn (r : TakeOnResult.t)
| Carry (r : CarryResult.t).

#[global] Instance eq_dec : EqDecision t.
Proof. solve_decision. Defined.

(** [r.__class__[name]]: lookup by name in the enum class of [r]. *)
Definition class_getitem (r : t) (name : string) : option t :=
  match r with
  | Shot _ => Shot <$> getitem ShotResult.members name
  | Pass _ => Pass <$> getitem PassResult.members name
  | TakeOn _ => TakeOn <$> getitem TakeOnResult.members name
  | Carry _ => Carry <$> getitem CarryResult.members name
  end.

Definition is_success (r : t) : bool :=
  match r with
  | Shot r => ShotResult.is_success r
  | Pass r => PassResult.is_success r
  | TakeOn r => TakeOnResult.is_success r
  | Carry r => CarryResult.is_success r
  end.
End ResultType.

Module CardType.
Inductive t := FIRST_YELLOW | SECOND_YELLOW | RED.
#[global] Instance eq_dec : EqDecision t.
Proof. solve_decision. Defined.
End CardType.

Module EventType.
Inductive t :=
| GENERIC | PASS | SHOT | TAKE_ON | CARRY | SUBSTITUTION | CARD
| PLAYER_ON | PLAYER_OFF | RECOVERY | BALL_OUT | FOUL_COMMITTED
| FORMATION_CHANGE.

#[global] Instance eq_dec : EqDecision t.
Proof. solve_decision. Defined.

Definition members : list (string * t) :=
  [("GENERIC", GENERIC); ("PASS", PASS); ("SHOT", SHOT);
   ("TAKE_ON", TAKE_ON); ("CARRY", CARRY);
   ("SUBSTITUTION", SUBSTITUTION); ("CARD", CARD);
   ("PLAYER_ON", PLAYER_ON); ("PLAYER_OFF", PLAYER_OFF);
   ("RECOVERY", RECOVERY); ("BALL_OUT", BALL_OUT);
   ("FOUL_COMMITTED", FOUL_COMMITTED);
   ("FORMATION_CHANGE", FORMATION_CHANGE)].
End EventType.

Module SetPieceType.
Inductive t :=
| GOAL_KICK | FREE_KICK | THROW_IN | CORNER_KICK | PENALTY | KICK_OFF.
#[global] Instance eq_dec : EqDecision t.
Proof. solve_decision. Defined.
End SetPieceType.

Module PassType.
Inductive t :=
| CROSS | HAND_PASS | HEAD_PASS | HIGH_PASS | LAUNCH | SIMPLE_PASS
| SMART_PASS | LONG_BALL | THROUGH_BALL | CHIPPED_PASS | FLICK_ON
| ASSIST | ASSIST_2ND | SWITCH_OF_PLAY.
#[global] Instance eq_dec : EqDecision t.
Proof. solve_decision. Defined.
End PassType.

Module BodyPart.
Inductive t :=
| RIGHT_FOOT | LEFT_FOOT | HEAD | BOTH_HANDS | CHEST | LEFT_HAND
| RIGHT_HAND | DROP_KICK | KEEPER_ARM | OTHER | NO_TOUCH.
#[global] Instance eq_dec : EqDecision t.
Proof. solve_decision. Defined.
End BodyPart.

Module GoalkeeperAction.
Inductive t := REFLEX | SAVE_ATTEMPT.
#[global] Instance eq_dec : EqDecision t.
Proof. solve_decision. Defined.
End GoalkeeperAction.

(** ** Qualifiers *)

Module Qualifier.

(** What the [value] attribute of a qualifier can hold. *)
Inductive value_t :=
| VSetPiece (v : SetPieceType.t)
| VCard (v : CardType.t)
| VPass (v : PassType.t)
| VBodyPart (v : BodyPart.t)
| VGoalkeeperAction (v : GoalkeeperAction.t)
| VBool (b : bool).

(** Instances of the concrete qualifier dataclasses. *)
Inductive t :=
| SetPieceQualifier (v : SetPieceType.t)
| CardQualifier (v : CardType.t)
| PassQualifier (v : PassType.t)
| BodyPartQualifier (v : BodyPart.t)
| GoalkeeperActionQualifier (v : GoalkeeperAction.t)
| CounterAttackQualifier (v : bool).

Definition value (q : t) : value_t :=
  match q with
  | SetPieceQualifier v => VSetPiece v
  | CardQualifier v => VCard v
  | PassQualifier v => VPass v
  | BodyPartQualifier v => VBodyPart v
  | GoalkeeperActionQualifier v => VGoalkeeperAction v
  | CounterAttackQualifier v => VBool v
  end.

(** The qualifier classes, abstract ones included: the possible
    [qualifier_type] arguments. *)
Inductive class :=
| Qualifier_cls | BoolQualifier_cls | EnumQualifier_cls
| SetPieceQualifier_cls | CardQualifier_cls | PassQualifier_cls
| BodyPartQualifier_cls | GoalkeeperActionQualifier_cls
| CounterAttackQualifier_cls.

#[global] Instance class_eq_dec : EqDecision class.
Proof. solve_decision. Defined.

(** [type(q)]. *)
Definition type_of (q : t) : class :=
  match q with
  | SetPieceQualifier _ => SetPieceQualifier_cls
  | CardQualifier _ => CardQualifier_cls
  | PassQualifier _ => PassQualifier_cls
  | BodyPartQualifier _ => BodyPartQualifier_cls
  | GoalkeeperActionQualifier _ => GoalkeeperActionQualifier_cls
  | CounterAttackQualifier _ => CounterAttackQualifier_cls
  end.

(** Direct base class, following the [class ...(Base)] headers. *)
Definition base (c : class) : option class :=
  match c with
  | Qualifier_cls => None
  | BoolQualifier_cls | EnumQualifier_cls => Some Qualifier_cls
  | CounterAttackQualifier_cls => Some BoolQualifier_cls
  | _ => Some EnumQualifier_cls
  end.

(** [issubclass(c, d)]; the hierarchy has depth three. *)
Definition issubclass (c d : class) : bool :=
  bool_decide (c = d)
  || match base c with
     | None => false
     | Some b =>
         bool_decide (b = d)
         || match base b with
            | None => false
            | Some bb => bool_decide (bb = d)
            end
     end.

Definition isinstance (q : t) (c : class) : bool :=
  issubclass (type_of q) c.

End Qualifier.

(** ** Geometry primitives and the collaborators of a record *)

Module Point.
Record t := { x : float; y : float }.
End Point.

Inductive Ground := HOME | AWAY.

#[global] Instance Ground_eq_dec : EqDecision Ground.
Proof. solve_decision. Defined.

Module Team.
Record t := { team_id : string; name : string; ground : Ground }.
End Team.

Module Player.
Record t := { player_id : string; name : string }.
End Player.

(** Values held in the [state] dictionary ([Dict[str, Any]]). *)
Inductive Value :=
| VNone
| VBool (b : bool)
| VInt (z : Z)
| VStr (s : string)
| VPair (a b : Value).

(** Object references: the address of a dataset object. *)
Definition addr := nat.

(** ** Events *)

Module Event.

(** The subclass of an event with the fields that subclass adds. *)
Inductive kind_t :=
| GenericEvent (event_name : string)
| ShotEvent (result_coordinates : option Point.t)
| PassEvent (receive_timestamp : float) (receiver_player : option Player.t)
    (receiver_coordinates : option Point.t)
| TakeOnEvent
| CarryEvent (end_timestamp : float) (end_coordinates : option Point.t)
| SubstitutionEvent (replacement_player : Player.t)
| PlayerOffEvent
| PlayerOnEvent
| CardEvent (card_type : CardType.t)
| FormationChangeEvent (formation_type : string)
| RecoveryEvent
| BallOutEvent
| FoulCommittedEvent.

(** The fields of [DataRecord] that the model uses ([dataset], [period],
    [timestamp], [ball_owning_team]) followed by those of [Event]. *)
Record t := {
  dataset : option addr;
  period : nat;
  timestamp : float;
  ball_owning_team : option Team.t;
  event_id : string;
  team : option Team.t;
  player : option Player.t;
  coordinates : option Point.t;
  result : option ResultType.t;
  raw_event : string;
  state : gmap string Value;
  related_event_ids : list string;
  qualifiers : option (list Qualifier.t);
  kind : kind_t
}.

Definition record_id (self : t) : string := event_id self.

(** The class-level default of the [event_type] field. *)
Definition event_type (self : t) : EventType.t :=
  match kind self with
  | GenericEvent _ => EventType.GENERIC
  | ShotEvent _ => EventType.SHOT
  | PassEvent _ _ _ => EventType.PASS
  | TakeOnEvent => EventType.TAKE_ON
  | CarryEvent _ _ => EventType.CARRY
  | SubstitutionEvent _ => EventType.SUBSTITUTION
  | PlayerOffEvent => EventType.PLAYER_OFF
  | PlayerOnEvent => EventType.PLAYER_ON
  | CardEvent _ => EventType.CARD
  | FormationChangeEvent _ => EventType.FORMATION_CHANGE
  | RecoveryEvent => EventType.RECOVERY
  | BallOutEvent => EventType.BALL_OUT
  | FoulCommittedEvent => EventType.FOUL_COMMITTED
  end.

(** The loop of [get_qualifier_value]: the value of the first instance
    of [qualifier_type]. *)
Fixpoint first_qualifier_value (qs : list Qualifier.t)
    (qualifier_type : Qualifier.class) : option Qualifier.value_t :=
  match qs with
  | [] => None
  | qualifier :: qs' =>
      if Qualifier.isinstance qualifier qualifier_type
      then Some (Qualifier.value qualifier)
      else first_qualifier_value qs' qualifier_type
  end.

(** [Event.get_qualifier_value]; [None] is Python's [None]. The guard
    [if self.qualifiers] is false for [None] and for the empty list. *)
Definition get_qualifier_value (self : t) (qualifier_type : Qualifier.class)
    : option Qualifier.value_t :=
  match qualifiers self with
  | Some (q :: qs) => first_qualifier_value (q :: qs) qualifier_type
  | _ => None
  end.

Section RelatedEvents.

(** The [Dataset] class lives in [common.py]; its truth value and its
    lookup by record identifier are taken as parameters. The lookup may
    raise. *)
Variable dataset_bool : addr -> bool.
Variable get_record_by_id : addr -> string -> outcome t.

(** [Event.get_related_events]. *)
Definition get_related_events (self : t) : outcome (list t) :=
  match dataset self with
  | None => Raise OrphanedRecordError
  | Some d =>
      if negb (dataset_bool d) then Raise OrphanedRecordError
      else omapM (fun event_id => get_record_by_id d event_id)
                 (related_event_ids self)
  end.

(** [Event.get_related_event] with an [EventType] argument. *)
Definition get_related_event (self : t) (type_ : EventType.t)
    : outcome (option t) :=
  let* related := get_related_events self in
  Ok (List.find (fun e => bool_decide (event_type e = type_)) related).

End RelatedEvents.

(** The possible [filter_] arguments of [matches]. *)
Inductive filter_t :=
| FilterNone
| FilterCallable (f : t -> outcome (option bool))
| FilterStr (s : string)
| FilterOther.

(** The [len(parts)] dispatch of [matches]. *)
Definition filter_parts (parts : list string)
    : outcome (string * option string) :=
  match parts with
  | [event_type; result] => Ok (event_type, Some result)
  | [event_type] => Ok (event_type, None)
  | _ => Raise InvalidFilterError
  end.

(** The [if event_type:] block: [Ok false] stands for the early
    [return False], [Ok true] for falling through. *)
Definition check_event_type (self : t) (event_type_ : string) : outcome bool :=
  if Str.truthy event_type_ then
    match getitem EventType.members event_type_ with
    | None => Raise InvalidFilterError
    | Some ty => Ok (bool_decide (event_type self = ty))
    end
  else Ok true.

(** The [if result:] block, with the same convention. *)
Definition check_result (self : t) (result_ : option string) : bool :=
  match result_ with
  | None => true
  | Some r =>
      if Str.truthy r then
        match result self with
        | None => false
        | Some own =>
            match ResultType.class_getitem own r with
            | None => false
            | Some wanted => bool_decide (own = wanted)
            end
        end
      else true
  end.

(** [Event.matches]. A filter that is neither [None], callable nor a
    string falls off the end of the method, which returns [None]. *)
Definition matches (self : t) (filter_ : filter_t) : outcome (option bool) :=
  match filter_ with
  | FilterNone => Ok (Some true)
  | FilterCallable f => f self
  | FilterStr s =>
      let parts := Str.split "."%char (Str.upper s) in
      let* (event_type_, result_) := filter_parts parts in
      let* same_type := check_event_type self event_type_ in
      if negb same_type then Ok (Some false)
      else Ok (Some (check_result self result_))
  | FilterOther => Ok None
  end.

End Event.

(** ** Coordinate systems and orientations

    [kloppy/domain/models/pitch.py], [common.py] and the services under
    [kloppy/domain/services] are not among the source files; the
    definitions from here to [EventDataset.add_state] follow the
    specification. *)

Module PitchDimensions.

(** Modelled from the spec: the class [PitchDimensions] (pitch.py is
    missing), a pair of closed intervals, the x-range and the y-range. *)
Record t := { x_min : float; x_max : float; y_min : float; y_max : float }.

(** Modelled from the spec: the invariant of [PitchDimensions] (pitch.py
    is missing), [min < max] on both axes. *)
Definition valid (d : t) : bool :=
  (x_min d <? x_max d)%float && (y_min d <? y_max d)%float.

End PitchDimensions.

(** Modelled from the spec: the enumeration [VerticalOrientation]
    (pitch.py is missing), the direction in which y grows. *)
Inductive VerticalOrientation := TOP_TO_BOTTOM | BOTTOM_TO_TOP.

#[global] Instance VerticalOrientation_eq_dec : EqDecision VerticalOrientation.
Proof. solve_decision. Defined.

(** Modelled from the spec: the origin convention of a coordinate
    system (pitch.py is missing); the transformation does not read it. *)
Inductive Origin := TOP_LEFT | BOTTOM_LEFT | CENTER.

(** Modelled from the spec: the enumeration [Orientation] (common.py
    is missing) with the four variants that the spec names. *)
Inductive Orientation :=
| FIXED_HOME_AWAY
| BALL_OWNING_TEAM
| ACTION_EXECUTING_TEAM
| NOT_SET.

#[global] Instance Orientation_eq_dec : EqDecision Orientation.
Proof. solve_decision. Defined.

Module CoordinateSystem.

(** Modelled from the spec: the class [CoordinateSystem] (pitch.py is
    missing), the tuple of pitch dimensions, vertical orientation and
    origin convention. *)
Record t := {
  pitch_dimensions : PitchDimensions.t;
  vertical_orientation : VerticalOrientation;
  origin : Origin
}.

(** Modelled from the spec: the validation of a coordinate system's own
    invariants (pitch.py is missing); degenerate bounds are a
    configuration error. *)
Definition validate (cs : t) : outcome t :=
  if PitchDimensions.valid (pitch_dimensions cs) then Ok cs
  else Raise ConfigurationError.

(** Modelled from the spec: the construction of a [CoordinateSystem]
    (pitch.py is missing), which rejects degenerate dimensions. *)
Definition create (d : PitchDimensions.t) (v : VerticalOrientation)
    (o : Origin) : outcome t :=
  validate {| pitch_dimensions := d; vertical_orientation := v; origin := o |}.

(** How the caller names the target coordinate system: a provider
    identifier, or an explicit pair. *)
Inductive spec_t :=
| ByProvider (provider : string)
| Explicit (d : PitchDimensions.t) (v : VerticalOrientation).

End CoordinateSystem.

(** What the transformation is configured with, and what the spec
    leaves open: the table of provider coordinate systems, the origin
    given to a coordinate system built from an explicit pair, and the
    mirror decision of the two dynamic orientations once the team they
    depend on is known. *)
Record TransformEnv := {
  providers : gmap string CoordinateSystem.t;
  custom_origin : Origin;
  dynamic_mirror : Orientation -> Orientation -> Team.t -> bool
}.

(** Modelled from the spec: the coordinate system registry (section 4.1;
    its module is missing). Unknown providers are a configuration error;
    the result is validated on both paths. *)
Definition build_coordinate_system (env : TransformEnv)
    (s : CoordinateSystem.spec_t) : outcome CoordinateSystem.t :=
  match s with
  | CoordinateSystem.ByProvider provider =>
      match providers env !! provider with
      | None => Raise ConfigurationError
      | Some cs => CoordinateSystem.validate cs
      end
  | CoordinateSystem.Explicit d v =>
      CoordinateSystem.create d v (custom_origin env)
  end.

Definition is_away (team : option Team.t) : bool :=
  match team with
  | Some t => bool_decide (Team.ground t = AWAY)
  | None => false
  end.

(** Modelled from the spec: the orientation resolver (section 4.2; the
    transformer module is missing). The dynamic variants need the
    ball-owning team, respectively the team executing the action, and
    fail without it; the context is consulted before anything else. A
    dataset already in the target orientation needs no mirror.
    Otherwise, for the fixed variant the away team's records are
    mirrored and the home team's are not. *)
Definition resolve_mirror (env : TransformEnv) (source target : Orientation)
    (record : Event.t) : outcome bool :=
  match target with
  | FIXED_HOME_AWAY =>
      if bool_decide (source = target) then Ok false
      else Ok (is_away (Event.team record))
  | BALL_OWNING_TEAM =>
      match Event.ball_owning_team record with
      | None => Raise UnresolvableOrientationError
      | Some t =>
          if bool_decide (source = target) then Ok false
          else Ok (dynamic_mirror env source target t)
      end
  | ACTION_EXECUTING_TEAM =>
      match Event.team record with
      | None => Raise UnresolvableOrientationError
      | Some t =>
          if bool_decide (source = target) then Ok false
          else Ok (dynamic_mirror env source target t)
      end
  | NOT_SET => Ok false
  end.

(** Modelled from the spec: the mirror decision of a transform (section
    4.3, step 1). Without a requested target orientation nothing is
    resolved and nothing is mirrored. *)
Definition resolve_requested (env : TransformEnv) (source : Orientation)
    (to_orientation : option Orientation) (record : Event.t) : outcome bool :=
  match to_orientation with
  | None => Ok false
  | Some target => resolve_mirror env source target record
  end.

(** Modelled from the spec: the vertical mirror decision (section 4.2),
    taken when the vertical conventions of source and target differ. *)
Definition resolve_vertical (source target : CoordinateSystem.t) : bool :=
  bool_decide (CoordinateSystem.vertical_orientation source
               <> CoordinateSystem.vertical_orientation target).

(** ** The per-axis mapping *)

Local Open Scope float_scope.

(** Modelled from the spec: the reflection about the midpoint of an
    axis, [x' = min + max - x]. *)
Definition reflect (lo hi v : float) : float := lo + hi - v.

(** Modelled from the spec: the linear rescale from the source interval
    to the target interval. *)
Definition rescale (smin smax tmin tmax v : float) : float :=
  tmin + (v - smin) / (smax - smin) * (tmax - tmin).

(** Modelled from the spec: the mapping of one axis (section 4.3, step
    2): reflect about the source bounds if [pre], rescale, reflect about
    the target bounds if [post]. *)
Definition axis_map (pre post : bool) (smin smax tmin tmax v : float) : float :=
  let v1 := if pre then reflect smin smax v else v in
  let v2 := rescale smin smax tmin tmax v1 in
  if post then reflect tmin tmax v2 else v2.

(** Modelled from the spec: the mapping of a point. The orientation
    mirror is the left-right one and acts on x before the rescale; the
    vertical flip acts on y after it. *)
Definition transform_point (mirror vflip : bool)
    (src tgt : PitchDimensions.t) (p : Point.t) : Point.t :=
  {| Point.x :=
       axis_map mirror false
         (PitchDimensions.x_min src) (PitchDimensions.x_max src)
         (PitchDimensions.x_min tgt) (PitchDimensions.x_max tgt) (Point.x p);
     Point.y :=
       axis_map false vflip
         (PitchDimensions.y_min src) (PitchDimensions.y_max src)
         (PitchDimensions.y_min tgt) (PitchDimensions.y_max tgt) (Point.y p) |}.

Local Close Scope float_scope.

(** The same two formulas in exact rational arithmetic, for comparison
    with what binary64 computes. *)
Module Exact.
Definition reflect (lo hi v : Qc) : Qc := (lo + hi - v)%Qc.
Definition rescale (smin smax tmin tmax v : Qc) : Qc :=
  (tmin + (v - smin) / (smax - smin) * (tmax - tmin))%Qc.
End Exact.

(** ** Transforming one record *)

(** The secondary coordinate of a record, for the subclasses that have
    one: [ShotEvent.result_coordinates], [PassEvent.receiver_coordinates]
    and [CarryEvent.end_coordinates]. *)
Definition secondary_coordinates (e : Event.t) : option Point.t :=
  match Event.kind e with
  | Event.ShotEvent c => c
  | Event.PassEvent _ _ c => c
  | Event.CarryEvent _ c => c
  | _ => None
  end.

(** Applies [f] to the secondary coordinate and keeps the other fields
    of the subclass. *)
Definition map_kind (f : option Point.t -> option Point.t)
    (k : Event.kind_t) : Event.kind_t :=
  match k with
  | Event.ShotEvent c => Event.ShotEvent (f c)
  | Event.PassEvent ts p c => Event.PassEvent ts p (f c)
  | Event.CarryEvent ts c => Event.CarryEvent ts (f c)
  | other => other
  end.

(** [dataclasses.replace(e, coordinates=..., <secondary>=...)]. *)
Definition replace_coordinates (f : option Point.t -> option Point.t)
    (e : Event.t) : Event.t :=
  {| Event.dataset := Event.dataset e;
     Event.period := Event.period e;
     Event.timestamp := Event.timestamp e;
     Event.ball_owning_team := Event.ball_owning_team e;
     Event.event_id := Event.event_id e;
     Event.team := Event.team e;
     Event.player := Event.player e;
     Event.coordinates := f (Event.coordinates e);
     Event.result := Event.result e;
     Event.raw_event := Event.raw_event e;
     Event.state := Event.state e;
     Event.related_event_ids := Event.related_event_ids e;
     Event.qualifiers := Event.qualifiers e;
     Event.kind := map_kind f (Event.kind e) |}.

(** [dataclasses.replace(e, state=s)]. *)
Definition replace_state (s : gmap string Value) (e : Event.t) : Event.t :=
  {| Event.dataset := Event.dataset e;
     Event.period := Event.period e;
     Event.timestamp := Event.timestamp e;
     Event.ball_owning_team := Event.ball_owning_team e;
     Event.event_id := Event.event_id e;
     Event.team := Event.team e;
     Event.player := Event.player e;
     Event.coordinates := Event.coordinates e;
     Event.result := Event.result e;
     Event.raw_event := Event.raw_event e;
     Event.state := s;
     Event.related_event_ids := Event.related_event_ids e;
     Event.qualifiers := Event.qualifiers e;
     Event.kind := Event.kind e |}.

(** Modelled from the spec: the per-record step of the transformation
    engine (section 4.3, steps 1 to 4; the transformer module is
    missing). One mirror decision serves every spatial attribute of the
    record; an absent point stays absent; nothing else changes. *)
Definition transform_event (env : TransformEnv)
    (source_o : Orientation) (to_orientation : option Orientation)
    (source target : CoordinateSystem.t)
    (e : Event.t) : outcome Event.t :=
  let* mirror := resolve_requested env source_o to_orientation e in
  let vflip := resolve_vertical source target in
  Ok (replace_coordinates
        (option_map (transform_point mirror vflip
                       (CoordinateSystem.pitch_dimensions source)
                       (CoordinateSystem.pitch_dimensions target)))
        e).

(** ** Datasets and the object store *)

Module Metadata.
(** Modelled from the spec: the metadata of a dataset (common.py is
    missing), reduced to the coordinate system and the orientation. *)
Record t := {
  coordinate_system : CoordinateSystem.t;
  orientation : Orientation
}.
End Metadata.

Module EventDataset.
(** [EventDataset]: the [metadata] field inherited from [Dataset] and
    the ordered [records]. *)
Record t := { metadata : Metadata.t; records : list Event.t }.

Definition events (self : t) : list Event.t := records self.
End EventDataset.

(** The object store: dataset objects by address, and a ghost counter of
    the records that have been handed to a per-record step. An
    operation that builds a new dataset allocates it; one that changed a
    dataset in place would overwrite an address. *)
Record World := { heap : list EventDataset.t; touched : nat }.

(** Computations that read and extend the store and may raise. *)
Definition M (A : Type) : Type := World -> outcome A * World.

Definition mret {A} (a : A) : M A := fun w => (Ok a, w).

Definition mbind {A B} (m : M A) (k : A -> M B) : M B :=
  fun w =>
    match m w with
    | (Ok a, w') => k a w'
    | (Raise e, w') => (Raise e, w')
    end.

Notation "'let!' x := m 'in' k" := (mbind m (fun x => k))
  (at level 10, x pattern, m at level 100, k at level 200).

Definition lift {A} (o : outcome A) : M A := fun w => (o, w).

(** Reads the dataset object behind a reference. *)
Definition deref (a : addr) : M EventDataset.t :=
  fun w =>
    match heap w !! a with
    | Some d => (Ok d, w)
    | None => (Raise DanglingReference, w)
    end.

(** Creates a new dataset object and returns its address. *)
Definition alloc (d : EventDataset.t) : M addr :=
  fun w => (Ok (length (heap w)),
            {| heap := heap w ++ [d]; touched := touched w |}).

(** Replaces the dataset object at an address: the mutation in place
    that a store allows and that [transform] and [add_state] have no
    use for. *)
Definition overwrite (a : addr) (d : EventDataset.t) : M unit :=
  fun w =>
    match heap w !! a with
    | Some _ => (Ok tt, {| heap := <[a := d]> (heap w); touched := touched w |})
    | None => (Raise DanglingReference, w)
    end.

(** Ghost step: one more record is being processed. *)
Definition touch : M unit :=
  fun w => (Ok tt, {| heap := heap w; touched := S (touched w) |}).

(** The store after [k] more records have been processed. *)
Definition touched_more (w : World) (k : nat) : World :=
  {| heap := heap w; touched := touched w + k |}.

(** The loop over the records of a dataset, in order; it stops at the
    first record whose step raises. *)
Fixpoint for_each_record (step : Event.t -> outcome Event.t)
    (rs : list Event.t) : M (list Event.t) :=
  match rs with
  | [] => mret []
  | r :: rs' =>
      let! _ := touch in
      let! r' := lift (step r) in
      let! rs'' := for_each_record step rs' in
      mret (r' :: rs'')
  end.

(** ** [transform] *)

(** Modelled from the spec: the resolution of the target metadata
    (section 4.3; the transformer module is missing). The source
    coordinate system is validated; the target coordinate system is
    resolved through the registry, or kept when none is named; a
    pitch-dimensions override replaces the rectangle and keeps the rest;
    an absent target orientation keeps the source orientation. *)
Definition resolve_target (env : TransformEnv) (md : Metadata.t)
    (to_coordinate_system : option CoordinateSystem.spec_t)
    (to_orientation : option Orientation)
    (to_pitch_dimensions : option PitchDimensions.t) : outcome Metadata.t :=
  let* source := CoordinateSystem.validate (Metadata.coordinate_system md) in
  let* base :=
    match to_coordinate_system with
    | Some s => build_coordinate_system env s
    | None => Ok source
    end in
  let* target :=
    match to_pitch_dimensions with
    | Some d =>
        CoordinateSystem.create d
          (CoordinateSystem.vertical_orientation base)
          (CoordinateSystem.origin base)
    | None => Ok base
    end in
  Ok {| Metadata.coordinate_system := target;
        Metadata.orientation :=
          default (Metadata.orientation md) to_orientation |}.

(** Modelled from the spec: the setup of [transform] (section 4.3; the
    transformer module is missing). At least one target must be given.
    Every failure here is a configuration error. *)
Definition transform_setup (env : TransformEnv) (md : Metadata.t)
    (to_coordinate_system : option CoordinateSystem.spec_t)
    (to_orientation : option Orientation)
    (to_pitch_dimensions : option PitchDimensions.t) : outcome Metadata.t :=
  match to_coordinate_system, to_orientation, to_pitch_dimensions with
  | None, None, None => Raise ConfigurationError
  | _, _, _ =>
      resolve_target env md to_coordinate_system to_orientation
        to_pitch_dimensions
  end.

(** Modelled from the spec: [transform] (section 4.3; the transformer
    module is missing). The setup runs first; then every record is
    mapped, in order; the result is a new dataset object carrying the
    target metadata. *)
Definition transform (env : TransformEnv)
    (to_coordinate_system : option CoordinateSystem.spec_t)
    (to_orientation : option Orientation)
    (to_pitch_dimensions : option PitchDimensions.t)
    (dataset : addr) : M addr :=
  let! d := deref dataset in
  let md := EventDataset.metadata d in
  let! md' := lift (transform_setup env md to_coordinate_system
                      to_orientation to_pitch_dimensions) in
  let! rs := for_each_record
               (transform_event env
                  (Metadata.orientation md) to_orientation
                  (Metadata.coordinate_system md)
                  (Metadata.coordinate_system md'))
               (EventDataset.records d) in
  alloc {| EventDataset.metadata := md'; EventDataset.records := rs |}.

(** ** [add_state] *)

Module StateBuilder.
(** Modelled from the spec: a state builder (section 3; the
    state_builder package is missing): the initial value of its context
    and how one record advances it. The snapshot attached to a record is
    the value of the context. *)
Record t := {
  initial_state : Value;
  reduce : Value -> Event.t -> Value
}.
End StateBuilder.

(** The running contexts of a pass: for each requested key its builder
    and the current value of its context. *)
Abbreviation contexts := (gmap string (StateBuilder.t * Value)).

(** Modelled from the spec: the resolution of the builder keys (section
    4.4; the state_builder package is missing). A key missing from the
    registry is a configuration error; otherwise the context of every
    key is initialised. *)
Definition resolve_keys (registry : gmap string StateBuilder.t)
    (builder_keys : list string) : outcome contexts :=
  foldr (fun key acc =>
           let* m := acc in
           match registry !! key with
           | None => Raise ConfigurationError
           | Some b => Ok (<[key := (b, StateBuilder.initial_state b)]> m)
           end)
        (Ok ∅) builder_keys.

(** Modelled from the spec: the setup of [add_state] (section 4.4; the
    state_builder package is missing). A key requested twice collides,
    which is a configuration error as well. *)
Definition create_state_builders (registry : gmap string StateBuilder.t)
    (builder_keys : list string) : outcome contexts :=
  if bool_decide (NoDup builder_keys) then resolve_keys registry builder_keys
  else Raise ConfigurationError.

(** Every builder advances its context by the record. *)
Definition advance (ctxs : contexts) (r : Event.t) : contexts :=
  (fun bc => (fst bc, StateBuilder.reduce (fst bc) (snd bc) r)) <$> ctxs.

(** The captured values are merged into the state of the record; on a
    common key the new value wins, as in [{**event.state, **state}]. *)
Definition annotate (ctxs : contexts) (r : Event.t) : Event.t :=
  replace_state ((snd <$> ctxs) ∪ Event.state r) r.

(** Modelled from the spec: the single left-to-right pass of [add_state]
    (section 4.4, steps 1 to 3). A record is annotated with the contexts
    as they are after that record has advanced them. *)
Fixpoint state_pass (ctxs : contexts) (rs : list Event.t) : M (list Event.t) :=
  match rs with
  | [] => mret []
  | r :: rs' =>
      let! _ := touch in
      let ctxs' := advance ctxs r in
      let! rs'' := state_pass ctxs' rs' in
      mret (annotate ctxs' r :: rs'')
  end.

(** Modelled from the spec: the service function [add_state] (section
    4.4; the state_builder package is missing). The keys are resolved
    before the dataset is read. *)
Definition add_state (registry : gmap string StateBuilder.t)
    (dataset : addr) (builder_keys : list string) : M addr :=
  let! ctxs := lift (create_state_builders registry builder_keys) in
  let! d := deref dataset in
  let! rs := state_pass ctxs (EventDataset.records d) in
  alloc {| EventDataset.metadata := EventDataset.metadata d;
           EventDataset.records := rs |}.

(** [EventDataset.add_state]: delegates to the service function. *)
Definition EventDataset_add_state (registry : gmap string StateBuilder.t)
    (self : addr) (builder_keys : list string) : M addr :=
  add_state registry self builder_keys.

(** ** More of [event.py]: built-in exceptions *)

(** The built-in exceptions that the remaining methods can raise. *)
Inductive builtin := KeyError | TypeError | ImportError.

(** What a method raises: an exception of kloppy or a built-in one. *)
Inductive raised :=
| Kloppy (e : exn)
| Builtin (b : builtin).

Inductive result (A : Type) : Type :=
| Return (a : A)
| Throw (r : raised).
Arguments Return {A} a.
Arguments Throw {A} r.

Definition rbind {A B} (m : result A) (k : A -> result B) : result B :=
  match m with
  | Return a => k a
  | Throw r => Throw r
  end.

Notation "'let?' x := m 'in' k" := (rbind m (fun x => k))
  (at level 10, x pattern, m at level 100, k at level 200).

Definition of_outcome {A} (o : outcome A) : result A :=
  match o with
  | Ok a => Return a
  | Raise e => Throw (Kloppy e)
  end.

Fixpoint rmapM {A B} (f : A -> result B) (l : list A) : result (list B) :=
  match l with
  | [] => Return []
  | a :: l' =>
      let? b := f a in
      let? bs := rmapM f l' in
      Return (b :: bs)
  end.

(** ** Names and values of the enum members *)

(** [t.value] for an [EventType]: the strings on the right of the class
    body. Only [GENERIC] has a value that differs from its name. *)
Definition EventType_value (t : EventType.t) : string :=
  match t with
  | EventType.GENERIC => "generic"
  | EventType.PASS => "PASS"
  | EventType.SHOT => "SHOT"
  | EventType.TAKE_ON => "TAKE_ON"
  | EventType.CARRY => "CARRY"
  | EventType.SUBSTITUTION => "SUBSTITUTION"
  | EventType.CARD => "CARD"
  | EventType.PLAYER_ON => "PLAYER_ON"
  | EventType.PLAYER_OFF => "PLAYER_OFF"
  | EventType.RECOVERY => "RECOVERY"
  | EventType.BALL_OUT => "BALL_OUT"
  | EventType.FOUL_COMMITTED => "FOUL_COMMITTED"
  | EventType.FORMATION_CHANGE => "FORMATION_CHANGE"
  end.

(** [r.name] for a result; in the four result enums every member has
    its name as value, so this is [r.value] and [str(r)] as well
    ([ResultType.__str__] returns the value). *)
Definition ResultType_name (r : ResultType.t) : string :=
  match r with
  | ResultType.Shot ShotResult.GOAL => "GOAL"
  | ResultType.Shot ShotResult.OFF_TARGET => "OFF_TARGET"
  | ResultType.Shot ShotResult.POST => "POST"
  | ResultType.Shot ShotResult.BLOCKED => "BLOCKED"
  | ResultType.Shot ShotResult.SAVED => "SAVED"
  | ResultType.Shot ShotResult.OWN_GOAL => "OWN_GOAL"
  | ResultType.Pass PassResult.COMPLETE => "COMPLETE"
  | ResultType.Pass PassResult.INCOMPLETE => "INCOMPLETE"
  | ResultType.Pass PassResult.OUT => "OUT"
  | ResultType.Pass PassResult.OFFSIDE => "OFFSIDE"
  | ResultType.TakeOn TakeOnResult.COMPLETE => "COMPLETE"
  | ResultType.TakeOn TakeOnResult.INCOMPLETE => "INCOMPLETE"
  | ResultType.TakeOn TakeOnResult.OUT => "OUT"
  | ResultType.Carry CarryResult.COMPLETE => "COMPLETE"
  | ResultType.Carry CarryResult.INCOMPLETE => "INCOMPLETE"
  end.

Definition ResultType_str (r : ResultType.t) : string := ResultType_name r.

(** ** [Event.get_related_event] and the [related_*] methods *)

(** The [type_] argument: a string or an [EventType]. *)
Inductive type_arg :=
| TypeName (s : string)
| TypeMember (t : EventType.t).

(** [EventType[type_.upper()] if isinstance(type_, str) else type_]; the
    [KeyError] of an unknown name is not caught. *)
Definition resolve_type_arg (type_ : type_arg) : result EventType.t :=
  match type_ with
  | TypeName s =>
      match getitem EventType.members (Str.upper s) with
      | Some t => Return t
      | None => Throw (Builtin KeyError)
      end
  | TypeMember t => Return t
  end.

(** The loop of [get_related_event]: the first event of the type. *)
Fixpoint first_of_type (related : list Event.t) (event_type : EventType.t)
    : option Event.t :=
  match related with
  | [] => None
  | related_event :: rest =>
      if bool_decide (Event.event_type related_event = event_type)
      then Some related_event
      else first_of_type rest event_type
  end.

Section RelatedEvent.

Variable dataset_bool : addr -> bool.
Variable get_record_by_id : addr -> string -> outcome Event.t.

(** [Event.get_related_event] with either kind of argument: the type is
    resolved before the related events are fetched. *)
Definition get_related_event (self : Event.t) (type_ : type_arg)
    : result (option Event.t) :=
  let? event_type := resolve_type_arg type_ in
  let? related :=
    of_outcome (Event.get_related_events dataset_bool get_record_by_id self) in
  Return (first_of_type related event_type).

Definition related_pass (self : Event.t) :=
  get_related_event self (TypeMember EventType.PASS).
Definition related_shot (self : Event.t) :=
  get_related_event self (TypeMember EventType.SHOT).
Definition related_take_on (self : Event.t) :=
  get_related_event self (TypeMember EventType.TAKE_ON).
Definition related_carry (self : Event.t) :=
  get_related_event self (TypeMember EventType.CARRY).
Definition related_substitution (self : Event.t) :=
  get_related_event self (TypeMember EventType.SUBSTITUTION).
Definition related_card (self : Event.t) :=
  get_related_event self (TypeMember EventType.CARD).
Definition related_player_on (self : Event.t) :=
  get_related_event self (TypeMember EventType.PLAYER_ON).
Definition related_player_off (self : Event.t) :=
  get_related_event self (TypeMember EventType.PLAYER_OFF).
Definition related_recovery (self : Event.t) :=
  get_related_event self (TypeMember EventType.RECOVERY).
Definition related_ball_out (self : Event.t) :=
  get_related_event self (TypeMember EventType.BALL_OUT).
Definition related_foul_committed (self : Event.t) :=
  get_related_event self (TypeMember EventType.FOUL_COMMITTED).
Definition related_formation_change (self : Event.t) :=
  get_related_event self (TypeMember EventType.FORMATION_CHANGE).

End RelatedEvent.

(** ** [Event.create] *)

Section Create.

(** Keyword arguments are a dictionary from parameter names to values of
    any type; [{}] and [[]] are two of those values. The constructor
    generated by [@dataclass] for the class at hand is a parameter: it
    receives the keyword arguments and returns the instance or raises. *)
Variable Any : Type.
Variable empty_dict : Any.
Variable empty_list : Any.
Variable Instance : Type.
Variable cls : gmap string Any -> result Instance.

(** The dictionary [extra_kwargs] that [create] builds. *)
Definition extra_kwargs (kwargs : gmap string Any) : gmap string Any :=
  let extra : gmap string Any := {[ "state" := empty_dict ]} in
  if bool_decide (is_Some (kwargs !! "related_event_ids")) then extra
  else <["related_event_ids" := empty_list]> extra.

(** A call of [f] that unpacks the dictionaries [a] and [b] as keyword
    arguments: a keyword given by both is a [TypeError], raised before
    [f] runs. *)
Definition call_with_both (f : gmap string Any -> result Instance)
    (a b : gmap string Any) : result Instance :=
  if bool_decide (a ##ₘ b) then f (a ∪ b)
  else Throw (Builtin TypeError).

(** [Event.create], called with the keyword arguments [kwargs]. *)
Definition create (kwargs : gmap string Any) : result Instance :=
  call_with_both cls kwargs (extra_kwargs kwargs).

End Create.

(** ** The row converter of [EventDataset.to_pandas] *)

Section ToPandas.

Variable Any : Type.

(** A value of [additional_columns]: callable or not. *)
Inductive column :=
| Callable (f : Event.t -> result Any)
| Constant (v : Any).

(** [v(event) if callable(v) else v]. *)
Definition column_value (v : column) (event : Event.t) : result Any :=
  match v with
  | Callable f => f event
  | Constant c => Return c
  end.

(** The loop [for k, v in additional_columns.items(): row.update({k:
    value})], over the items in their order. *)
Fixpoint update_row (row : gmap string Any) (items : list (string * column))
    (event : Event.t) : result (gmap string Any) :=
  match items with
  | [] => Return row
  | (k, v) :: rest =>
      let? value := column_value v event in
      update_row (<[k := value]> row) rest event
  end.

(** [generic_record_converter], the closure of [to_pandas]. The guard
    [if additional_columns] is false for [None] and for the empty
    dictionary. *)
Definition generic_record_converter
    (record_converter : Event.t -> result (gmap string Any))
    (additional_columns : option (list (string * column)))
    (event : Event.t) : result (gmap string Any) :=
  let? row := record_converter event in
  match additional_columns with
  | Some (item :: items) => update_row row (item :: items) event
  | _ => Return row
  end.

(** [EventDataset.to_pandas]. The module [pandas] is [None] when the
    import fails and otherwise gives [DataFrame.from_records], which
    consumes the rows; [DefaultTransformer()] replaces a converter that
    is absent. *)
Definition to_pandas (DataFrame : Type)
    (pandas : option (list (gmap string Any) -> DataFrame))
    (DefaultTransformer : Event.t -> result (gmap string Any))
    (self : EventDataset.t)
    (record_converter : option (Event.t -> result (gmap string Any)))
    (additional_columns : option (list (string * column)))
    : result DataFrame :=
  match pandas with
  | None => Throw (Builtin ImportError)
  | Some from_records =>
      let record_converter := default DefaultTransformer record_converter in
      let? rows :=
        rmapM (generic_record_converter record_converter additional_columns)
              (EventDataset.records self) in
      Return (from_records rows)
  end.

End ToPandas.

Arguments Callable {Any} f.
Arguments Constant {Any} v.

(** ** Predicates used in the statements *)

(** The string is written in ASCII: the strings on which [Str.upper] is
    exactly [str.upper]. *)
Fixpoint is_ascii (s : string) : bool :=
  match s with
  | EmptyString => true
  | String c s' => (nat_of_ascii c <? 128)%nat && is_ascii s'
  end.




(** ** Sample data *)

Module Sample.

Definition home : Team.t :=
  {| Team.team_id := "1"; Team.name := "Home"; Team.ground := HOME |}.

Definition away : Team.t :=
  {| Team.team_id := "2"; Team.name := "Away"; Team.ground := AWAY |}.

(** An event with the given identifier, team, ball-owning team,
    coordinates, result and subclass, attached to no dataset. *)
Definition event (id : string) (team owner : option Team.t)
    (c : option Point.t) (r : option ResultType.t) (k : Event.kind_t)
    : Event.t :=
  {| Event.dataset := None;
     Event.period := 1;
     Event.timestamp := 0%float;
     Event.ball_owning_team := owner;
     Event.event_id := id;
     Event.team := team;
     Event.player := None;
     Event.coordinates := c;
     Event.result := r;
     Event.raw_event := "";
     Event.state := ∅;
     Event.related_event_ids := [];
     Event.qualifiers := None;
     Event.kind := k |}.

Definition with_qualifiers (qs : option (list Qualifier.t)) (e : Event.t)
    : Event.t :=
  {| Event.dataset := Event.dataset e;
     Event.period := Event.period e;
     Event.timestamp := Event.timestamp e;
     Event.ball_owning_team := Event.ball_owning_team e;
     Event.event_id := Event.event_id e;
     Event.team := Event.team e;
     Event.player := Event.player e;
     Event.coordinates := Event.coordinates e;
     Event.result := Event.result e;
     Event.raw_event := Event.raw_event e;
     Event.state := Event.state e;
     Event.related_event_ids := Event.related_event_ids e;
     Event.qualifiers := qs;
     Event.kind := Event.kind e |}.

Definition with_relations (d : option addr) (ids : list string)
    (e : Event.t) : Event.t :=
  {| Event.dataset := d;
     Event.period := Event.period e;
     Event.timestamp := Event.timestamp e;
     Event.ball_owning_team := Event.ball_owning_team e;
     Event.event_id := Event.event_id e;
     Event.team := Event.team e;
     Event.player := Event.player e;
     Event.coordinates := Event.coordinates e;
     Event.result := Event.result e;
     Event.raw_event := Event.raw_event e;
     Event.state := Event.state e;
     Event.related_event_ids := ids;
     Event.qualifiers := Event.qualifiers e;
     Event.kind := Event.kind e |}.

(** A pass without coordinates and without a result. *)
Definition bare_pass (id : string) : Event.t :=
  event id (Some home) (Some home) None None
    (Event.PassEvent 0%float None None).

(** A completed pass. *)
Definition complete_pass (id : string) : Event.t :=
  event id (Some home) (Some home) None
    (Some (ResultType.Pass PassResult.COMPLETE))
    (Event.PassEvent 0%float None None).

(** A pass taken as a free kick, with the head. *)
Definition free_kick : Event.t :=
  with_qualifiers
    (Some [Qualifier.BodyPartQualifier BodyPart.HEAD;
           Qualifier.SetPieceQualifier SetPieceType.FREE_KICK;
           Qualifier.SetPieceQualifier SetPieceType.PENALTY])
    (complete_pass "fk").

(** A lookup table standing for the records of the dataset at address 0. *)
Definition lookup (d : addr) (id : string) : outcome Event.t :=
  if String.eqb id "a" then Ok (bare_pass "a")
  else if String.eqb id "b" then Ok (complete_pass "b")
  else Raise OrphanedRecordError.

End Sample.

(** ** The scenario of three passes on a 0-120 pitch *)

Module Scenario.

Definition dims (x0 x1 y0 y1 : float) : PitchDimensions.t :=
  {| PitchDimensions.x_min := x0;
     PitchDimensions.x_max := x1;
     PitchDimensions.y_min := y0;
     PitchDimensions.y_max := y1 |}.
Arguments dims (x0 x1 y0 y1)%_float.

(** The source system: 120 by 80 units. *)
Definition source : CoordinateSystem.t :=
  {| CoordinateSystem.pitch_dimensions := dims 0 120 0 80;
     CoordinateSystem.vertical_orientation := TOP_TO_BOTTOM;
     CoordinateSystem.origin := TOP_LEFT |}.

(** The normalised target system, named by its explicit parameters. *)
Definition unit_system : CoordinateSystem.spec_t :=
  CoordinateSystem.Explicit (dims 0 1 0 1) TOP_TO_BOTTOM.

Definition env : TransformEnv :=
  {| providers := ∅;
     custom_origin := TOP_LEFT;
     dynamic_mirror := fun _ _ t => bool_decide (Team.ground t = AWAY) |}.










(** A dataset of two passes without coordinates, in a store of its own;
    the second pass is by the away team. *)
Definition blind_world : World :=
  {| heap := [{| EventDataset.metadata :=
                   {| Metadata.coordinate_system := source;
                      Metadata.orientation := ACTION_EXECUTING_TEAM |};
                 EventDataset.records :=
                   [Sample.bare_pass "1";
                    Sample.event "2" (Some Sample.away) None None None
                      (Event.ShotEvent None)] |}];
     touched := 0 |}.

(** A builder that counts the goals scored so far. *)
Definition goals : StateBuilder.t :=
  {| StateBuilder.initial_state := VInt 0;
     StateBuilder.reduce := fun ctx e =>
       match ctx, Event.result e with
       | VInt n, Some (ResultType.Shot ShotResult.GOAL) => VInt (n + 1)
       | _, _ => ctx
       end |}.

Definition registry : gmap string StateBuilder.t := {[ "goals" := goals ]}.

Definition goal (id : string) : Event.t :=
  Sample.event id (Some Sample.home) None None
    (Some (ResultType.Shot ShotResult.GOAL)) (Event.ShotEvent None).

(** A pass, a goal, a pass and a second goal, in a store of their own. *)
Definition match_world : World :=
  {| heap := [{| EventDataset.metadata :=
                   {| Metadata.coordinate_system := source;
                      Metadata.orientation := FIXED_HOME_AWAY |};
                 EventDataset.records :=
                   [Sample.bare_pass "1"; goal "2";
                    Sample.bare_pass "3"; goal "4"] |}];
     touched := 0 |}.

(** The snapshots under [key] of the dataset a computation returns. *)
Definition snapshots (key : string) (run : outcome addr * World)
    : option (list (option Value)) :=
  match run with
  | (Ok a, w) =>
      (fun d => (fun e => Event.state e !! key) <$> EventDataset.records d)
        <$> heap w !! a
  | (Raise _, _) => None
  end.

End Scenario.

(** ** Sample rows *)

Module Frames.

(** A converter with the columns [event_id] and [kind]. *)
Definition converter (e : Event.t) : result (gmap string string) :=
  Return {[ "event_id" := Event.event_id e;
            "kind" := EventType_value (Event.event_type e) ]}.

(** A constant column, and a callable one that replaces [event_id]. *)
Definition columns : list (string * column string) :=
  [("team", Constant "home");
   ("event_id", Callable (fun e => Return (String.append "#" (Event.event_id e))))].

Definition dataset : EventDataset.t :=
  {| EventDataset.metadata :=
       {| Metadata.coordinate_system := Scenario.source;
          Metadata.orientation := FIXED_HOME_AWAY |};
     EventDataset.records := [Sample.bare_pass "1"; Scenario.goal "2"] |}.

(** The rows that [to_pandas] hands to pandas, pandas being the
    identity on lists of rows. *)
Definition frame : list (gmap string string) :=
  match to_pandas string (list (gmap string string)) (Some id) converter
          dataset None (Some columns) with
  | Return df => df
  | Throw _ => []
  end.

End Frames.

(** * Properties of the event model *)

(** ** The string methods and the class tables on examples *)

Example split_examples :
  Str.split "."%char "" = [""]
  /\ Str.split "."%char "PASS" = ["PASS"]
  /\ Str.split "."%char "PASS.COMPLETE" = ["PASS"; "COMPLETE"]
  /\ Str.split "."%char "PASS." = ["PASS"; ""]
  /\ Str.split "."%char "A..B" = ["A"; ""; "B"].
Proof. repeat split. Qed.

Example upper_example : Str.upper "take_on.Complete" = "TAKE_ON.COMPLETE".
Proof. reflexivity. Qed.

Example getitem_examples :
  getitem EventType.members "TAKE_ON" = Some EventType.TAKE_ON
  /\ getitem EventType.members "generic" = None
  /\ ResultType.class_getitem (ResultType.Pass PassResult.OUT) "COMPLETE"
     = Some (ResultType.Pass PassResult.COMPLETE)
  /\ ResultType.class_getitem (ResultType.Pass PassResult.OUT) "GOAL" = None.
Proof. repeat split. Qed.

Example isinstance_examples :
  Qualifier.isinstance (Qualifier.CounterAttackQualifier true)
    Qualifier.BoolQualifier_cls = true
  /\ Qualifier.isinstance (Qualifier.CounterAttackQualifier true)
       Qualifier.EnumQualifier_cls = false
  /\ Qualifier.isinstance (Qualifier.CardQualifier CardType.RED)
       Qualifier.Qualifier_cls = true
  /\ Qualifier.isinstance (Qualifier.CardQualifier CardType.RED)
       Qualifier.PassQualifier_cls = false.
Proof. repeat split. Qed.

(** ** Qualifier lookup *)

Lemma first_qualifier_value_skip qs1 qs T :
  Forall (fun q => Qualifier.isinstance q T = false) qs1 ->
  Event.first_qualifier_value (qs1 ++ qs) T = Event.first_qualifier_value qs T.
Proof.
  induction 1 as [|q qs1 Hq _ IH]; simpl; [reflexivity|].
  rewrite Hq. exact IH.
Qed.

Lemma first_qualifier_value_none qs T :
  Forall (fun q => Qualifier.isinstance q T = false) qs ->
  Event.first_qualifier_value qs T = None.
Proof.
  intros H. rewrite <- (app_nil_r qs).
  rewrite first_qualifier_value_skip by assumption. reflexivity.
Qed.

Lemma get_qualifier_value_loop e qs T :
  Event.qualifiers e = Some qs ->
  Event.get_qualifier_value e T = Event.first_qualifier_value qs T.
Proof.
  unfold Event.get_qualifier_value. intros ->. destruct qs; reflexivity.
Qed.

(** C9. [get_qualifier_value(T)] returns the value of the first
    qualifier of the event that is an instance of [T]: if the list is
    [qs1 ++ q :: qs2], nothing in [qs1] is an instance of [T] and [q] is
    one, the result is the value of [q]. It returns [None] when the list
    is absent, when it is empty, and when it holds no instance of [T]. *)
Theorem get_qualifier_value_first_instance (e : Event.t) (T : Qualifier.class) :
  (forall qs1 q qs2,
      Event.qualifiers e = Some (qs1 ++ q :: qs2) ->
      Forall (fun q' => Qualifier.isinstance q' T = false) qs1 ->
      Qualifier.isinstance q T = true ->
      Event.get_qualifier_value e T = Some (Qualifier.value q)) /\
  (Event.qualifiers e = None -> Event.get_qualifier_value e T = None) /\
  (Event.qualifiers e = Some [] -> Event.get_qualifier_value e T = None) /\
  (forall qs,
      Event.qualifiers e = Some qs ->
      Forall (fun q' => Qualifier.isinstance q' T = false) qs ->
      Event.get_qualifier_value e T = None).
Proof.
  repeat split.
  - intros qs1 q qs2 Hqs Hbefore Hq.
    rewrite (get_qualifier_value_loop _ _ _ Hqs).
    rewrite first_qualifier_value_skip by assumption.
    simpl. rewrite Hq. reflexivity.
  - unfold Event.get_qualifier_value. intros ->. reflexivity.
  - unfold Event.get_qualifier_value. intros ->. reflexivity.
  - intros qs Hqs Hnone.
    rewrite (get_qualifier_value_loop _ _ _ Hqs).
    apply first_qualifier_value_none, Hnone.
Qed.

(** The free kick of the sample data: the body-part qualifier comes
    first and is skipped, the first set-piece qualifier wins over the
    second; the abstract class [EnumQualifier] matches the very first. *)
Lemma get_qualifier_value_first_instance_witness :
  Event.get_qualifier_value Sample.free_kick Qualifier.SetPieceQualifier_cls
  = Some (Qualifier.VSetPiece SetPieceType.FREE_KICK)
  /\ Event.get_qualifier_value Sample.free_kick Qualifier.EnumQualifier_cls
     = Some (Qualifier.VBodyPart BodyPart.HEAD)
  /\ Event.get_qualifier_value Sample.free_kick Qualifier.CounterAttackQualifier_cls
     = None.
Proof.
  split; [|split].
  - apply (proj1 (get_qualifier_value_first_instance
                    Sample.free_kick Qualifier.SetPieceQualifier_cls)
             [Qualifier.BodyPartQualifier BodyPart.HEAD]
             (Qualifier.SetPieceQualifier SetPieceType.FREE_KICK)
             [Qualifier.SetPieceQualifier SetPieceType.PENALTY]).
    + reflexivity.
    + repeat constructor.
    + reflexivity.
  - apply (proj1 (get_qualifier_value_first_instance
                    Sample.free_kick Qualifier.EnumQualifier_cls)
             []
             (Qualifier.BodyPartQualifier BodyPart.HEAD)
             [Qualifier.SetPieceQualifier SetPieceType.FREE_KICK;
              Qualifier.SetPieceQualifier SetPieceType.PENALTY]).
    + reflexivity.
    + constructor.
    + reflexivity.
  - apply (proj2 (proj2 (proj2 (get_qualifier_value_first_instance
                    Sample.free_kick Qualifier.CounterAttackQualifier_cls)))
             _ eq_refl).
    repeat constructor.
Defined.

(** ** String filters *)

Lemma split_length sep s :
  length (Str.split sep s) = S (Str.count sep s).
Proof.
  induction s as [|c s IH]; simpl; [reflexivity|].
  destruct (Ascii.eqb c sep); simpl.
  - rewrite IH. reflexivity.
  - destruct (Str.split sep s) as [|p ps]; simpl in *; [discriminate|exact IH].
Qed.

Lemma upper_ascii_dot c :
  Ascii.eqb (Str.upper_ascii c) "."%char = Ascii.eqb c "."%char.
Proof.
  destruct c as [[] [] [] [] [] [] [] []]; reflexivity.
Qed.

Lemma count_upper_dot s :
  Str.count "."%char (Str.upper s) = Str.count "."%char s.
Proof.
  induction s as [|c s IH]; simpl; [reflexivity|].
  rewrite upper_ascii_dot, IH. reflexivity.
Qed.

Lemma filter_parts_long parts :
  2 < length parts -> Event.filter_parts parts = Raise InvalidFilterError.
Proof.
  destruct parts as [|a [|b [|c l]]]; simpl; intros H; try lia; reflexivity.
Qed.

Lemma filter_parts_short parts et :
  length parts <= 2 -> head parts = Some et ->
  exists r, Event.filter_parts parts = Ok (et, r).
Proof.
  destruct parts as [|a [|b [|c l]]]; simpl; intros Hlen Hhd;
    try discriminate; try lia; inversion Hhd; subst; eauto.
Qed.

Lemma truthy_nonempty s : s <> "" -> Str.truthy s = true.
Proof. destruct s; [congruence|reflexivity]. Qed.

(** C10, as amended. For filters written in ASCII, the strings that the
    model covers: [matches] upper-cases a string filter and splits it
    on the dot, so the outcome depends on the filter only up to case and
    the number of parts is one more than the number of dots. More than
    two parts raise [InvalidFilterError]. With one or two parts, an
    event-type part that is not empty and names no event type raises
    [InvalidFilterError]. With two parts, an event type that matches and
    a result part that is not empty, the filter does not match, and does
    not raise, when the event has no result or the result part names no
    member of the enum class of the event's result. The filter [None]
    always matches. *)
Theorem matches_string_filter (e : Event.t) (s : string) :
  is_ascii s = true ->
  let parts := Str.split "."%char (Str.upper s) in
  (forall s', is_ascii s' = true -> Str.upper s' = Str.upper s ->
     Event.matches e (Event.FilterStr s') = Event.matches e (Event.FilterStr s)) /\
  length parts = S (Str.count "."%char s) /\
  (2 < length parts ->
     Event.matches e (Event.FilterStr s) = Raise InvalidFilterError) /\
  (forall et,
     length parts <= 2 -> head parts = Some et -> et <> "" ->
     getitem EventType.members et = None ->
     Event.matches e (Event.FilterStr s) = Raise InvalidFilterError) /\
  (forall et r,
     parts = [et; r] -> r <> "" ->
     getitem EventType.members et = Some (Event.event_type e) ->
     (Event.result e = None \/
      exists own, Event.result e = Some own /\
                  ResultType.class_getitem own r = None) ->
     Event.matches e (Event.FilterStr s) = Ok (Some false)) /\
  Event.matches e Event.FilterNone = Ok (Some true).
Proof.
  intros _ parts. repeat split.
  - intros s' _ Hs'. unfold Event.matches. rewrite Hs'. reflexivity.
  - unfold parts. rewrite split_length, count_upper_dot. reflexivity.
  - intros Hlen. unfold Event.matches. fold parts.
    rewrite (filter_parts_long _ Hlen). reflexivity.
  - intros et Hlen Hhd Hne Hunknown. unfold Event.matches. fold parts.
    destruct (filter_parts_short _ _ Hlen Hhd) as [r ->]. simpl.
    unfold Event.check_event_type.
    rewrite (truthy_nonempty _ Hne), Hunknown. reflexivity.
  - intros et r Hparts Hne Hty Hres. unfold Event.matches. fold parts.
    rewrite Hparts. simpl. unfold Event.check_event_type.
    assert (Het : et <> "") by (intros ->; discriminate Hty).
    rewrite (truthy_nonempty _ Het), Hty. simpl.
    rewrite bool_decide_eq_true_2 by reflexivity. simpl.
    rewrite (truthy_nonempty _ Hne).
    destruct Hres as [-> | (own & -> & ->)]; reflexivity.
Qed.

(** The theorem at concrete filters, on a completed pass: three parts;
    an unknown event type; a result of another event class; and its
    independence of case. *)
Lemma matches_string_filter_witness :
  Event.matches (Sample.complete_pass "p") (Event.FilterStr "pass.complete.x")
  = Raise InvalidFilterError
  /\ Event.matches (Sample.complete_pass "p") (Event.FilterStr "dribble.complete")
     = Raise InvalidFilterError
  /\ Event.matches (Sample.complete_pass "p") (Event.FilterStr "pass.goal")
     = Ok (Some false)
  /\ Event.matches (Sample.complete_pass "p") (Event.FilterStr "Pass.Complete")
     = Event.matches (Sample.complete_pass "p") (Event.FilterStr "PASS.COMPLETE").
Proof.
  split; [|split; [|split]].
  - apply (proj1 (proj2 (proj2
             (matches_string_filter (Sample.complete_pass "p") "pass.complete.x"
                eq_refl)))).
    vm_compute. lia.
  - apply (proj1 (proj2 (proj2 (proj2
             (matches_string_filter (Sample.complete_pass "p") "dribble.complete"
                eq_refl))))
             "DRIBBLE").
    + vm_compute. lia.
    + reflexivity.
    + discriminate.
    + reflexivity.
  - apply (proj1 (proj2 (proj2 (proj2 (proj2
             (matches_string_filter (Sample.complete_pass "p") "pass.goal"
                eq_refl)))))
             "PASS" "GOAL").
    + reflexivity.
    + discriminate.
    + reflexivity.
    + right. eexists. split; reflexivity.
  - apply (proj1 (matches_string_filter (Sample.complete_pass "p")
                    "PASS.COMPLETE" eq_refl)).
    + reflexivity.
    + reflexivity.
Defined.

(** C10 as stated fails at empty parts. The empty filter has one part,
    the empty string, which names no event type, and yet it matches
    instead of raising. The filter [pass.] has two parts, its event type
    is that of a pass, the pass has no result, and yet it matches
    instead of returning [False]. *)
Lemma matches_empty_parts_unchecked :
  (length (Str.split "."%char (Str.upper "")) <= 2
   /\ head (Str.split "."%char (Str.upper "")) = Some ""
   /\ getitem EventType.members "" = None
   /\ Event.matches (Sample.bare_pass "p") (Event.FilterStr "")
      = Ok (Some true)
   /\ Event.matches (Sample.bare_pass "p") (Event.FilterStr "")
      <> Raise InvalidFilterError)
  /\
  (Str.split "."%char (Str.upper "pass.") = ["PASS"; ""]
   /\ getitem EventType.members "PASS"
      = Some (Event.event_type (Sample.bare_pass "p"))
   /\ Event.result (Sample.bare_pass "p") = None
   /\ Event.matches (Sample.bare_pass "p") (Event.FilterStr "pass.")
      = Ok (Some true)
   /\ Event.matches (Sample.bare_pass "p") (Event.FilterStr "pass.")
      <> Ok (Some false)).
Proof.
  split.
  - split; [vm_compute; lia|].
    repeat split; try reflexivity. discriminate.
  - repeat split; try reflexivity. discriminate.
Qed.

(** ** Related events *)

Lemma omapM_Forall2 {A B} (f : A -> outcome B) (l : list A) (bs : list B) :
  omapM f l = Ok bs <-> Forall2 (fun a b => f a = Ok b) l bs.
Proof.
  revert bs. induction l as [|a l IH]; intros bs; simpl.
  - split.
    + intros H. inversion H. constructor.
    + intros H. inversion H. reflexivity.
  - split.
    + destruct (f a) as [b|] eqn:Hfa; simpl; [|discriminate].
      destruct (omapM f l) as [bs'|] eqn:Hl; simpl; [|discriminate].
      intros H. inversion H; subst. constructor; [exact Hfa|].
      apply IH. reflexivity.
    + intros H. inversion H as [|a' b l' bs' Hfa Hrest]; subst.
      rewrite Hfa. simpl.
      apply IH in Hrest. rewrite Hrest. reflexivity.
Qed.

Lemma omapM_total {A B} (f : A -> outcome B) (l : list A) :
  Forall (fun a => exists b, f a = Ok b) l -> exists bs, omapM f l = Ok bs.
Proof.
  induction 1 as [|a l' [b Hb] _ [bs IH]]; cbn [omapM].
  - eexists. reflexivity.
  - rewrite Hb. cbn [obind]. rewrite IH. eexists. reflexivity.
Qed.

(** The guard is [not self.dataset]: a dataset object that counts as
    false is treated like an absent one. *)
Lemma get_related_events_false_dataset dataset_bool get_record_by_id e d :
  Event.dataset e = Some d -> dataset_bool d = false ->
  Event.get_related_events dataset_bool get_record_by_id e
  = Raise OrphanedRecordError.
Proof.
  unfold Event.get_related_events. intros -> ->. reflexivity.
Qed.

(** C6. An event whose dataset reference is absent raises
    [OrphanedRecordError], so nothing is returned. An event attached to
    a dataset [d] (one that counts as true) returns exactly the list
    that holds, for each identifier of [related_event_ids] and in that
    order, the record that the lookup of [d] gives for it: one record
    per identifier. It does return whenever each of those lookups does. *)
Theorem get_related_events_spec
    (dataset_bool : addr -> bool)
    (get_record_by_id : addr -> string -> outcome Event.t)
    (e : Event.t) :
  (Event.dataset e = None ->
   Event.get_related_events dataset_bool get_record_by_id e
   = Raise OrphanedRecordError) /\
  (forall d,
     Event.dataset e = Some d -> dataset_bool d = true ->
     (forall rs,
        Event.get_related_events dataset_bool get_record_by_id e = Ok rs <->
        Forall2 (fun event_id r => get_record_by_id d event_id = Ok r)
                (Event.related_event_ids e) rs) /\
     (forall rs,
        Event.get_related_events dataset_bool get_record_by_id e = Ok rs ->
        length rs = length (Event.related_event_ids e)) /\
     (Forall (fun event_id => exists r, get_record_by_id d event_id = Ok r)
             (Event.related_event_ids e) ->
      exists rs,
        Event.get_related_events dataset_bool get_record_by_id e = Ok rs)).
Proof.
  split.
  - unfold Event.get_related_events. intros ->. reflexivity.
  - intros d Hd Htrue.
    assert (Hrun : Event.get_related_events dataset_bool get_record_by_id e
                   = omapM (get_record_by_id d) (Event.related_event_ids e)).
    { unfold Event.get_related_events. rewrite Hd, Htrue. reflexivity. }
    rewrite Hrun. split; [|split].
    + intros rs. apply omapM_Forall2.
    + intros rs Hrs. apply omapM_Forall2 in Hrs.
      symmetry. eapply Forall2_length, Hrs.
    + apply omapM_total.
Qed.

(** A detached pass raises; the same pass attached to the dataset at
    address 0 and related to the events [b] and [a] returns those two
    records in that order. *)
Lemma get_related_events_spec_witness :
  Event.get_related_events (fun _ => true) Sample.lookup
    (Sample.with_relations None ["b"; "a"] (Sample.bare_pass "p"))
  = Raise OrphanedRecordError
  /\ Event.get_related_events (fun _ => true) Sample.lookup
       (Sample.with_relations (Some 0) ["b"; "a"] (Sample.bare_pass "p"))
     = Ok [Sample.complete_pass "b"; Sample.bare_pass "a"].
Proof.
  split.
  - apply (proj1 (get_related_events_spec (fun _ => true) Sample.lookup
                    (Sample.with_relations None ["b"; "a"] (Sample.bare_pass "p")))).
    reflexivity.
  - apply (proj1 (proj2 (get_related_events_spec (fun _ => true) Sample.lookup
                    (Sample.with_relations (Some 0) ["b"; "a"] (Sample.bare_pass "p")))
                  0 eq_refl eq_refl)).
    repeat constructor.
Defined.

(** * Properties of the transformation engine *)

(** ** The two formulas in exact arithmetic *)

Section ExactAxis.
Local Open Scope Qc_scope.

Lemma Qcminus_neq (a b : Qc) : a <> b -> b - a <> 0.
Proof.
  intros Hab H. apply Hab. symmetry.
  rewrite <- (Qcplus_0_r a), <- H. ring.
Qed.

Lemma exact_rescale_reflect (smin smax tmin tmax v : Qc) :
  smin <> smax ->
  Exact.rescale smin smax tmin tmax (Exact.reflect smin smax v)
  = Exact.reflect tmin tmax (Exact.rescale smin smax tmin tmax v).
Proof.
  intros Hs. unfold Exact.rescale, Exact.reflect. field.
  apply Qcminus_neq, Hs.
Qed.


End ExactAxis.

(** ** Running the passes over the store *)

Lemma touched_more_more w j k :
  touched_more (touched_more w j) k = touched_more w (j + k).
Proof. unfold touched_more. simpl. f_equal. lia. Qed.

Lemma for_each_record_run step rs w :
  exists k,
    for_each_record step rs w = (omapM step rs, touched_more w k)
    /\ k <= length rs
    /\ (forall rs', omapM step rs = Ok rs' -> k = length rs)
    /\ (k = 0 -> rs = []).
Proof.
  revert w. induction rs as [|r rs IH]; intros w.
  - exists 0. destruct w as [h t]. unfold touched_more. cbn.
    rewrite Nat.add_0_r. repeat split; auto.
  - cbn [for_each_record omapM]. unfold mbind at 1. unfold touch at 1.
    unfold mbind at 1. unfold lift at 1.
    destruct (step r) as [r'|e] eqn:Hstep; cbn [obind].
    + destruct (IH {| heap := heap w; touched := S (touched w) |})
        as (k & Hrun & Hle & Hall & _).
      unfold mbind at 1. rewrite Hrun.
      exists (S k). unfold touched_more in *. cbn [heap touched] in *.
      replace (touched w + S k) with (S (touched w) + k) by lia.
      split; [|split; [|split]].
      * destruct (omapM step rs); reflexivity.
      * simpl. lia.
      * intros rs'. destruct (omapM step rs) as [rs0|]; [|discriminate].
        intros _. simpl. f_equal. eapply Hall. reflexivity.
      * discriminate.
    + exists 1. unfold touched_more.
      replace (touched w + 1) with (S (touched w)) by lia.
      split; [reflexivity|]. split; [simpl; lia|].
      split; [discriminate|discriminate].
Qed.

Lemma transform_dangling env tc to td a w :
  heap w !! a = None ->
  transform env tc to td a w = (Raise DanglingReference, w).
Proof.
  intros H. unfold transform, mbind at 1, deref. rewrite H. reflexivity.
Qed.

Lemma transform_setup_fails env tc to td a w d e :
  heap w !! a = Some d ->
  transform_setup env (EventDataset.metadata d) tc to td = Raise e ->
  transform env tc to td a w = (Raise e, w).
Proof.
  intros Hd Hsetup. unfold transform, mbind at 1, deref. rewrite Hd.
  unfold mbind at 1, lift. rewrite Hsetup. reflexivity.
Qed.

Lemma transform_run env tc to td a w d md' :
  heap w !! a = Some d ->
  transform_setup env (EventDataset.metadata d) tc to td = Ok md' ->
  exists k,
    k <= length (EventDataset.records d) /\
    (k = 0 -> EventDataset.records d = []) /\
    transform env tc to td a w =
    match omapM (transform_event env
                   (Metadata.orientation (EventDataset.metadata d))
                   to
                   (Metadata.coordinate_system (EventDataset.metadata d))
                   (Metadata.coordinate_system md'))
                (EventDataset.records d) with
    | Ok rs =>
        (Ok (length (heap w)),
         {| heap := heap w ++ [{| EventDataset.metadata := md';
                                  EventDataset.records := rs |}];
            touched := touched w + k |})
    | Raise e => (Raise e, touched_more w k)
    end.
Proof.
  intros Hd Hsetup.
  destruct (for_each_record_run
              (transform_event env
                 (Metadata.orientation (EventDataset.metadata d))
                 to
                 (Metadata.coordinate_system (EventDataset.metadata d))
                 (Metadata.coordinate_system md'))
              (EventDataset.records d) w) as (k & Hrun & Hle & _ & Hzero).
  exists k. split; [exact Hle|]. split; [exact Hzero|].
  unfold transform, mbind at 1, deref. rewrite Hd.
  unfold mbind at 1, lift. rewrite Hsetup.
  unfold mbind at 1. rewrite Hrun.
  destruct (omapM _ _); reflexivity.
Qed.

Lemma transform_ok_inv env tc to td a w a1 w1 :
  transform env tc to td a w = (Ok a1, w1) ->
  exists d md' rs,
    heap w !! a = Some d
    /\ transform_setup env (EventDataset.metadata d) tc to td = Ok md'
    /\ omapM (transform_event env
                (Metadata.orientation (EventDataset.metadata d))
                to
                (Metadata.coordinate_system (EventDataset.metadata d))
                (Metadata.coordinate_system md'))
             (EventDataset.records d) = Ok rs
    /\ a1 = length (heap w)
    /\ heap w1 = heap w ++ [{| EventDataset.metadata := md';
                               EventDataset.records := rs |}]
    /\ touched w1 = touched w + length (EventDataset.records d).
Proof.
  intros Hrun.
  destruct (heap w !! a) as [d|] eqn:Hd.
  2:{ rewrite (transform_dangling _ _ _ _ _ _ Hd) in Hrun. discriminate. }
  destruct (transform_setup env (EventDataset.metadata d) tc to td)
    as [md'|e] eqn:Hsetup.
  2:{ rewrite (transform_setup_fails _ _ _ _ _ _ _ _ Hd Hsetup) in Hrun.
      discriminate. }
  destruct (for_each_record_run
              (transform_event env
                 (Metadata.orientation (EventDataset.metadata d))
                 to
                 (Metadata.coordinate_system (EventDataset.metadata d))
                 (Metadata.coordinate_system md'))
              (EventDataset.records d) w) as (k & Hloop & _ & Hall & _).
  unfold transform, mbind at 1, deref in Hrun. rewrite Hd in Hrun.
  unfold mbind at 1, lift in Hrun. rewrite Hsetup in Hrun.
  unfold mbind at 1 in Hrun. rewrite Hloop in Hrun.
  destruct (omapM _ _) as [rs|e] eqn:Hmap; [|discriminate].
  specialize (Hall rs eq_refl). subst k.
  exists d, md', rs. unfold alloc in Hrun. cbn in Hrun.
  inversion Hrun; subst. cbn. auto 10.
Qed.

(** ** The mapping of each record *)




(** ** Transforming twice *)







Lemma obind_ok_inv {A B} (m : outcome A) (k : A -> outcome B) b :
  obind m k = Ok b -> exists a, m = Ok a /\ k a = Ok b.
Proof. destruct m as [a|e]; cbn; [eauto|discriminate]. Qed.




Lemma transform_setup_resolve env md tc to td md' :
  transform_setup env md tc to td = Ok md' ->
  resolve_target env md tc to td = Ok md'
  /\ (forall md0, transform_setup env md0 tc to td
                  = resolve_target env md0 tc to td).
Proof.
  destruct tc, to, td; cbn; try discriminate; auto.
Qed.





(** ** Absent coordinates *)

Lemma replace_coordinates_absent f e :
  f None = None ->
  (Event.coordinates e = None ->
   Event.coordinates (replace_coordinates f e) = None)
  /\ (secondary_coordinates e = None ->
      secondary_coordinates (replace_coordinates f e) = None).
Proof.
  intros Hf. destruct e as [? ? ? ? ? ? ? c ? ? ? ? ? k].
  unfold secondary_coordinates, replace_coordinates. cbn. split.
  - intros ->. exact Hf.
  - destruct k; cbn; intros H; rewrite ?H; auto.
Qed.

Lemma transform_event_absent env so to src tgt e e' :
  transform_event env so to src tgt e = Ok e' ->
  (Event.coordinates e = None -> Event.coordinates e' = None)
  /\ (secondary_coordinates e = None -> secondary_coordinates e' = None).
Proof.
  unfold transform_event. intros H.
  apply obind_ok_inv in H as (mirror & _ & H). inversion H; subst e'.
  apply replace_coordinates_absent. reflexivity.
Qed.

(** C3. Whatever the targets of a transform, each record of the result
    whose source record has no primary coordinate has none either, and
    likewise for the secondary coordinate (the end point of a shot, of a
    pass or of a carry): an absent point is neither mirrored nor
    rescaled. *)
Theorem transform_keeps_absent_coordinates (env : TransformEnv)
    (tc : option CoordinateSystem.spec_t) (to : option Orientation)
    (td : option PitchDimensions.t) (a : addr) (w : World)
    (a1 : addr) (w1 : World) :
  transform env tc to td a w = (Ok a1, w1) ->
  exists d d1,
    heap w !! a = Some d /\ heap w1 !! a1 = Some d1
    /\ Forall2
         (fun e e' =>
            (Event.coordinates e = None -> Event.coordinates e' = None)
            /\ (secondary_coordinates e = None ->
                secondary_coordinates e' = None))
         (EventDataset.records d) (EventDataset.records d1).
Proof.
  intros Hrun.
  apply transform_ok_inv in Hrun
    as (d & md' & rs & Hd & _ & Hmap & -> & Hheap & _).
  exists d. eexists. split; [exact Hd|]. split.
  - rewrite Hheap. rewrite lookup_app_r by lia.
    rewrite Nat.sub_diag. reflexivity.
  - cbn [EventDataset.records]. apply omapM_Forall2 in Hmap.
    eapply Forall2_impl; [exact Hmap|].
    intros e e' He. eapply transform_event_absent, He.
Qed.

(** Two records without coordinates, rescaled and, for the away team's
    shot, mirrored: both are still without coordinates. *)
Lemma transform_keeps_absent_coordinates_witness :
  exists d d1,
    heap Scenario.blind_world !! 0 = Some d
    /\ heap (snd (transform Scenario.env (Some Scenario.unit_system)
                    (Some FIXED_HOME_AWAY) None 0 Scenario.blind_world)) !! 1
       = Some d1
    /\ Forall2
         (fun e e' =>
            (Event.coordinates e = None -> Event.coordinates e' = None)
            /\ (secondary_coordinates e = None ->
                secondary_coordinates e' = None))
         (EventDataset.records d) (EventDataset.records d1).
Proof.
  apply (transform_keeps_absent_coordinates Scenario.env
           (Some Scenario.unit_system) (Some FIXED_HOME_AWAY) None
           0 Scenario.blind_world 1).
  vm_compute. reflexivity.
Defined.

(** ** Unresolvable orientations *)




Lemma transform_setup_orientation env md tc to td md' :
  transform_setup env md tc to td = Ok md' ->
  Metadata.orientation md' = default (Metadata.orientation md) to.
Proof.
  intros H. apply transform_setup_resolve in H as [H _].
  unfold resolve_target in H.
  apply obind_ok_inv in H as (? & _ & H).
  apply obind_ok_inv in H as (? & _ & H).
  apply obind_ok_inv in H as (? & _ & H).
  inversion H. reflexivity.
Qed.




(** * Properties of the derived-state framework *)

(** ** Resolving the builder keys *)



Lemma resolve_keys_registered (registry : gmap string StateBuilder.t)
    (keys : list string) :
  (forall k, In k keys -> is_Some (registry !! k)) ->
  exists ctxs : contexts,
    resolve_keys registry keys = Ok ctxs
    /\ forall k b, In k keys -> registry !! k = Some b ->
                   ctxs !! k = Some (b, StateBuilder.initial_state b).
Proof.
  induction keys as [|k0 ks IH]; intros Hreg.
  - exists ∅. split; [reflexivity|]. intros k b [].
  - destruct IH as (m & Hm & Hlookup).
    { intros k Hk. apply Hreg. right. exact Hk. }
    destruct (Hreg k0 (or_introl eq_refl)) as [b0 Hb0].
    unfold resolve_keys in *. cbn [foldr]. rewrite Hm. cbn [obind]. rewrite Hb0.
    eexists. split; [reflexivity|].
    intros k b Hin Hb. destruct (decide (k0 = k)) as [->|Hne].
    + rewrite lookup_insert_eq. congruence.
    + rewrite lookup_insert_ne by exact Hne.
      destruct Hin as [Heq|Hin]; [contradiction|]. apply Hlookup; assumption.
Qed.



Lemma create_state_builders_ok registry keys :
  NoDup keys ->
  (forall k, In k keys -> is_Some (registry !! k)) ->
  exists ctxs : contexts,
    create_state_builders registry keys = Ok ctxs
    /\ forall k b, In k keys -> registry !! k = Some b ->
                   ctxs !! k = Some (b, StateBuilder.initial_state b).
Proof.
  intros Hnd Hreg. unfold create_state_builders.
  rewrite bool_decide_eq_true_2 by exact Hnd.
  apply resolve_keys_registered, Hreg.
Qed.

(** ** The pass *)

Lemma advance_lookup (ctxs : contexts) r k :
  advance ctxs r !! k
  = (fun bc => (fst bc, StateBuilder.reduce (fst bc) (snd bc) r))
      <$> ctxs !! k.
Proof. unfold advance. apply lookup_fmap. Qed.

Lemma advance_fold_lookup (ctxs : contexts) (rs : list Event.t) k b c :
  ctxs !! k = Some (b, c) ->
  foldl advance ctxs rs !! k = Some (b, foldl (StateBuilder.reduce b) c rs).
Proof.
  revert ctxs c. induction rs as [|r rs IH]; intros ctxs c Hk; cbn [foldl].
  - exact Hk.
  - apply IH. rewrite advance_lookup, Hk. reflexivity.
Qed.

Lemma annotate_state_lookup (ctxs : contexts) r k b c :
  ctxs !! k = Some (b, c) -> Event.state (annotate ctxs r) !! k = Some c.
Proof.
  intros Hk. unfold annotate, replace_state. cbn [Event.state].
  apply lookup_union_Some_l. rewrite lookup_fmap, Hk. reflexivity.
Qed.

Lemma state_pass_run (ctxs : contexts) (rs : list Event.t) (w : World) :
  exists rs',
    state_pass ctxs rs w = (Ok rs', touched_more w (length rs))
    /\ length rs' = length rs
    /\ forall i r,
         rs !! i = Some r ->
         rs' !! i = Some (annotate (foldl advance ctxs (take (S i) rs)) r).
Proof.
  revert ctxs w. induction rs as [|r rs IH]; intros ctxs w.
  - exists []. destruct w as [h t]. unfold touched_more. cbn.
    rewrite Nat.add_0_r. split; [reflexivity|]. split; [reflexivity|].
    intros i r Hi. discriminate Hi.
  - destruct (IH (advance ctxs r)
                {| heap := heap w; touched := S (touched w) |})
      as (rs' & Hrun & Hlen & Hnth).
    exists (annotate (advance ctxs r) r :: rs').
    cbn [state_pass]. unfold mbind at 1, touch at 1. unfold mbind at 1.
    rewrite Hrun. unfold mret, touched_more. cbn [heap touched length].
    replace (S (touched w) + length rs) with (touched w + S (length rs)) by lia.
    split; [reflexivity|]. split; [cbn; lia|].
    intros [|i] r0 Hi.
    + cbn in Hi. inversion Hi; subst. reflexivity.
    + cbn in Hi. apply Hnth in Hi. exact Hi.
Qed.

Lemma add_state_setup_fails registry a keys w x :
  create_state_builders registry keys = Raise x ->
  add_state registry a keys w = (Raise x, w).
Proof.
  intros H. unfold add_state, mbind at 1, lift. rewrite H. reflexivity.
Qed.

Lemma add_state_dangling registry a keys w ctxs :
  create_state_builders registry keys = Ok ctxs ->
  heap w !! a = None ->
  add_state registry a keys w = (Raise DanglingReference, w).
Proof.
  intros H Ha. unfold add_state, mbind at 1, lift. rewrite H.
  unfold mbind at 1, deref. rewrite Ha. reflexivity.
Qed.

Lemma add_state_run registry a keys w ctxs d :
  create_state_builders registry keys = Ok ctxs ->
  heap w !! a = Some d ->
  exists rs',
    add_state registry a keys w
    = (Ok (length (heap w)),
       {| heap := heap w ++ [{| EventDataset.metadata := EventDataset.metadata d;
                                EventDataset.records := rs' |}];
          touched := touched w + length (EventDataset.records d) |})
    /\ length rs' = length (EventDataset.records d)
    /\ forall i r,
         EventDataset.records d !! i = Some r ->
         rs' !! i
         = Some (annotate
                   (foldl advance ctxs (take (S i) (EventDataset.records d)))
                   r).
Proof.
  intros Hsetup Hd.
  destruct (state_pass_run ctxs (EventDataset.records d) w)
    as (rs' & Hrun & Hlen & Hnth).
  exists rs'. split; [|split; assumption].
  unfold add_state, mbind at 1, lift. rewrite Hsetup.
  unfold mbind at 1, deref. rewrite Hd.
  unfold mbind at 1. rewrite Hrun. reflexivity.
Qed.

(** ** Snapshots *)

Lemma add_state_snapshots_general registry a keys w d :
  heap w !! a = Some d ->
  NoDup keys ->
  (forall k, In k keys -> is_Some (registry !! k)) ->
  exists rs',
    add_state registry a keys w
    = (Ok (length (heap w)),
       {| heap := heap w ++ [{| EventDataset.metadata := EventDataset.metadata d;
                                EventDataset.records := rs' |}];
          touched := touched w + length (EventDataset.records d) |})
    /\ length rs' = length (EventDataset.records d)
    /\ (forall i r', rs' !! i = Some r' ->
        forall k b, In k keys -> registry !! k = Some b ->
          Event.state r' !! k
          = Some (foldl (StateBuilder.reduce b) (StateBuilder.initial_state b)
                    (take (S i) (EventDataset.records d))))
    /\ (forall rs'' w0 d0,
          heap w0 !! a = Some d0 ->
          EventDataset.records d0 = EventDataset.records d ->
          fst (add_state registry a keys w0) = Ok (length (heap w0))
          /\ heap (snd (add_state registry a keys w0)) !! length (heap w0)
             = Some {| EventDataset.metadata := EventDataset.metadata d0;
                       EventDataset.records := rs'' |} ->
          rs'' = rs').
Proof.
  intros Hd Hnd Hreg.
  destruct (create_state_builders_ok registry keys Hnd Hreg)
    as (ctxs & Hsetup & Hinit).
  destruct (add_state_run registry a keys w ctxs d Hsetup Hd)
    as (rs' & Hrun & Hlen & Hnth).
  exists rs'. split; [exact Hrun|]. split; [exact Hlen|]. split.
  - intros i r' Hi k b Hin Hb.
    assert (Hlt : i < length (EventDataset.records d)).
    { rewrite <- Hlen. eapply lookup_lt_Some, Hi. }
    destruct (lookup_lt_is_Some_2 _ _ Hlt) as [r Hr].
    rewrite (Hnth i r Hr) in Hi. inversion Hi; subst r'.
    eapply annotate_state_lookup.
    apply advance_fold_lookup. apply Hinit; assumption.
  - intros rs'' w0 d0 Hd0 Hsame [_ Hheap].
    destruct (add_state_run registry a keys w0 ctxs d0 Hsetup Hd0)
      as (rs0 & Hrun0 & Hlen0 & Hnth0).
    rewrite Hrun0 in Hheap. cbn [snd heap] in Hheap.
    rewrite lookup_app_r in Hheap by lia.
    rewrite Nat.sub_diag in Hheap. inversion Hheap; subst rs''.
    rewrite Hsame in *. apply list_eq. intros i.
    destruct (EventDataset.records d !! i) as [r|] eqn:Hr.
    + rewrite (Hnth i r Hr), (Hnth0 i r Hr). reflexivity.
    + apply lookup_ge_None in Hr.
      rewrite (lookup_ge_None_2 rs0), (lookup_ge_None_2 rs') by lia.
      reflexivity.
Qed.

(** C4. For a dataset [d] and a registered builder key [k],
    [add_state] returns a dataset with as many records as [d] whose
    record at position [i] (the record number [i + 1]) carries under [k]
    the context of the builder after folding the first [i + 1] records
    of [d], this record included. Run again on the same dataset it
    returns records with the same snapshots. *)
Theorem add_state_snapshot (registry : gmap string StateBuilder.t)
    (a : addr) (k : string) (b : StateBuilder.t) (w : World)
    (d : EventDataset.t) :
  heap w !! a = Some d ->
  registry !! k = Some b ->
  exists a1 w1 d1,
    EventDataset_add_state registry a [k] w = (Ok a1, w1)
    /\ heap w1 !! a1 = Some d1
    /\ length (EventDataset.records d1) = length (EventDataset.records d)
    /\ (forall i r',
          EventDataset.records d1 !! i = Some r' ->
          Event.state r' !! k
          = Some (foldl (StateBuilder.reduce b) (StateBuilder.initial_state b)
                    (take (S i) (EventDataset.records d))))
    /\ exists a2 w2 d2,
         EventDataset_add_state registry a [k] w1 = (Ok a2, w2)
         /\ heap w2 !! a2 = Some d2
         /\ Event.state <$> EventDataset.records d2
            = Event.state <$> EventDataset.records d1.
Proof.
  intros Hd Hb. unfold EventDataset_add_state.
  assert (Hnd : NoDup [k]) by (apply NoDup_singleton).
  assert (Hreg : forall k', In k' [k] -> is_Some (registry !! k')).
  { intros k' [<-|[]]. eauto. }
  destruct (add_state_snapshots_general registry a [k] w d Hd Hnd Hreg)
    as (rs' & Hrun & Hlen & Hsnap & Hdet).
  rewrite Hrun. eexists _, _, _. split; [reflexivity|].
  cbn [heap]. split.
  { rewrite lookup_app_r by lia. rewrite Nat.sub_diag. reflexivity. }
  cbn [EventDataset.records]. split; [exact Hlen|]. split.
  { intros i r' Hi. eapply Hsnap; [exact Hi|left; reflexivity|exact Hb]. }
  set (w1 := {| heap := _; touched := _ |}).
  assert (Hd1 : heap w1 !! a = Some d).
  { cbn [heap w1]. apply lookup_app_l_Some. exact Hd. }
  destruct (add_state_snapshots_general registry a [k] w1 d Hd1 Hnd Hreg)
    as (rs2 & Hrun2 & _ & _ & _).
  rewrite Hrun2. eexists _, _, _. split; [reflexivity|].
  cbn [heap]. split.
  { rewrite lookup_app_r by lia. rewrite Nat.sub_diag. reflexivity. }
  cbn [EventDataset.records]. f_equal.
  apply (Hdet rs2 w1 d Hd1 eq_refl). rewrite Hrun2. cbn [fst snd heap].
  split; [reflexivity|].
  rewrite lookup_app_r by lia. rewrite Nat.sub_diag. reflexivity.
Qed.

(** The goal counter over a pass, a goal, a pass and a goal. *)
Lemma add_state_snapshot_witness :
  exists a1 w1 d1,
    EventDataset_add_state Scenario.registry 0 ["goals"] Scenario.match_world
    = (Ok a1, w1)
    /\ heap w1 !! a1 = Some d1
    /\ length (EventDataset.records d1) = 4
    /\ (forall i r',
          EventDataset.records d1 !! i = Some r' ->
          Event.state r' !! "goals"
          = Some (foldl (StateBuilder.reduce Scenario.goals) (VInt 0)
                    (take (S i)
                       [Sample.bare_pass "1"; Scenario.goal "2";
                        Sample.bare_pass "3"; Scenario.goal "4"])))
    /\ exists a2 w2 d2,
         EventDataset_add_state Scenario.registry 0 ["goals"] w1 = (Ok a2, w2)
         /\ heap w2 !! a2 = Some d2
         /\ Event.state <$> EventDataset.records d2
            = Event.state <$> EventDataset.records d1.
Proof.
  apply (add_state_snapshot Scenario.registry 0 "goals" Scenario.goals
           Scenario.match_world
           {| EventDataset.metadata :=
                {| Metadata.coordinate_system := Scenario.source;
                   Metadata.orientation := FIXED_HOME_AWAY |};
              EventDataset.records :=
                [Sample.bare_pass "1"; Scenario.goal "2";
                 Sample.bare_pass "3"; Scenario.goal "4"] |}).
  - reflexivity.
  - reflexivity.
Defined.

(** In that run the record of each goal already counts its own goal. *)
Example add_state_goals_run :
  Scenario.snapshots "goals"
    (EventDataset_add_state Scenario.registry 0 ["goals"] Scenario.match_world)
  = Some [Some (VInt 0); Some (VInt 1); Some (VInt 1); Some (VInt 2)].
Proof. vm_compute. reflexivity. Qed.

(** * Frame properties and configuration errors *)

(** ** The store only grows *)

Lemma transform_extends env tc to td a w :
  exists new,
    heap (snd (transform env tc to td a w)) = heap w ++ new
    /\ forall a1, fst (transform env tc to td a w) = Ok a1 ->
                  a1 = length (heap w).
Proof.
  destruct (heap w !! a) as [d|] eqn:Hd.
  2:{ rewrite (transform_dangling _ _ _ _ _ _ Hd). exists [].
      cbn. rewrite app_nil_r. split; [reflexivity|discriminate]. }
  destruct (transform_setup env (EventDataset.metadata d) tc to td)
    as [md'|x] eqn:Hsetup.
  2:{ rewrite (transform_setup_fails _ _ _ _ _ _ _ _ Hd Hsetup). exists [].
      cbn. rewrite app_nil_r. split; [reflexivity|discriminate]. }
  destruct (transform_run env tc to td a w d md' Hd Hsetup)
    as (k & _ & _ & Hrun).
  rewrite Hrun. destruct (omapM _ _) as [rs|x].
  - eexists. cbn. split; [reflexivity|]. intros a1 H. inversion H. reflexivity.
  - exists []. cbn. rewrite app_nil_r. split; [reflexivity|discriminate].
Qed.

Lemma add_state_extends registry a keys w :
  exists new,
    heap (snd (add_state registry a keys w)) = heap w ++ new
    /\ forall a1, fst (add_state registry a keys w) = Ok a1 ->
                  a1 = length (heap w).
Proof.
  destruct (create_state_builders registry keys) as [ctxs|x] eqn:Hsetup.
  2:{ rewrite (add_state_setup_fails _ _ _ _ _ Hsetup). exists [].
      cbn. rewrite app_nil_r. split; [reflexivity|discriminate]. }
  destruct (heap w !! a) as [d|] eqn:Hd.
  2:{ rewrite (add_state_dangling _ _ _ _ _ Hsetup Hd). exists [].
      cbn. rewrite app_nil_r. split; [reflexivity|discriminate]. }
  destruct (add_state_run registry a keys w ctxs d Hsetup Hd)
    as (rs' & Hrun & _).
  rewrite Hrun. eexists. cbn. split; [reflexivity|].
  intros a1 H. inversion H. reflexivity.
Qed.

Lemma extension_frame (h new : list EventDataset.t) b d0 a1 :
  h !! b = Some d0 ->
  (h ++ new) !! b = Some d0
  /\ (a1 = length h -> a1 <> b /\ h !! a1 = None).
Proof.
  intros Hb. split; [apply lookup_app_l_Some, Hb|].
  intros ->. apply lookup_lt_Some in Hb. split; [lia|].
  apply lookup_ge_None. lia.
Qed.




(** In contrast, a mutation in place shows in the store: after
    [overwrite] the address holds the new object, not the old one. *)
Lemma overwrite_replaces a d d' w :
  heap w !! a = Some d ->
  exists w',
    overwrite a d' w = (Ok tt, w') /\ heap w' !! a = Some d'.
Proof.
  intros Ha. unfold overwrite. rewrite Ha. eexists. split; [reflexivity|].
  cbn [heap]. apply list_lookup_insert_eq. eapply lookup_lt_Some, Ha.
Qed.



(** ** Configuration errors *)










(** * Further properties of the event model *)

(** ** Qualifier lookup, conversely *)

Lemma first_qualifier_value_some qs T v :
  Event.first_qualifier_value qs T = Some v ->
  exists qs1 q qs2,
    qs = qs1 ++ q :: qs2
    /\ Forall (fun q' => Qualifier.isinstance q' T = false) qs1
    /\ Qualifier.isinstance q T = true
    /\ v = Qualifier.value q.
Proof.
  induction qs as [|q0 qs IH]; cbn [Event.first_qualifier_value];
    [discriminate|].
  destruct (Qualifier.isinstance q0 T) eqn:Hq0.
  - intros H. inversion H; subst. exists [], q0, qs. auto.
  - intros H. destruct (IH H) as (qs1 & q & qs2 & -> & Hbefore & Hq & ->).
    exists (q0 :: qs1), q, qs2. split; [reflexivity|]. auto.
Qed.

Lemma first_qualifier_value_none_inv qs T :
  Event.first_qualifier_value qs T = None ->
  Forall (fun q => Qualifier.isinstance q T = false) qs.
Proof.
  induction qs as [|q0 qs IH]; cbn [Event.first_qualifier_value];
    [constructor|].
  destruct (Qualifier.isinstance q0 T) eqn:Hq0; [discriminate|].
  intros H. constructor; [exact Hq0|apply IH, H].
Qed.

Lemma get_qualifier_value_unfold e T :
  Event.get_qualifier_value e T
  = match Event.qualifiers e with
    | Some qs => Event.first_qualifier_value qs T
    | None => None
    end.
Proof.
  unfold Event.get_qualifier_value.
  destruct (Event.qualifiers e) as [[|q qs]|]; reflexivity.
Qed.

(** X1. A value returned by [get_qualifier_value(T)] is the value of a
    qualifier of the event that is an instance of [T] and that no
    instance of [T] precedes in the list. *)
Theorem get_qualifier_value_sound (e : Event.t) (T : Qualifier.class)
    (v : Qualifier.value_t) :
  Event.get_qualifier_value e T = Some v ->
  exists qs1 q qs2,
    Event.qualifiers e = Some (qs1 ++ q :: qs2)
    /\ Forall (fun q' => Qualifier.isinstance q' T = false) qs1
    /\ Qualifier.isinstance q T = true
    /\ v = Qualifier.value q.
Proof.
  rewrite get_qualifier_value_unfold.
  destruct (Event.qualifiers e) as [qs|]; [|discriminate].
  intros H. apply first_qualifier_value_some in H
    as (qs1 & q & qs2 & -> & H). exists qs1, q, qs2. auto.
Qed.

Lemma get_qualifier_value_sound_witness :
  exists qs1 q qs2,
    Event.qualifiers Sample.free_kick = Some (qs1 ++ q :: qs2)
    /\ Forall (fun q' =>
                 Qualifier.isinstance q' Qualifier.SetPieceQualifier_cls = false)
              qs1
    /\ Qualifier.isinstance q Qualifier.SetPieceQualifier_cls = true
    /\ Qualifier.VSetPiece SetPieceType.FREE_KICK = Qualifier.value q.
Proof.
  apply (get_qualifier_value_sound Sample.free_kick
           Qualifier.SetPieceQualifier_cls).
  reflexivity.
Defined.

(** X2. [get_qualifier_value(T)] returns [None] exactly when the event
    has no qualifier that is an instance of [T]; a missing list and an
    empty list are two such cases. *)
Theorem get_qualifier_value_none_iff (e : Event.t) (T : Qualifier.class) :
  Event.get_qualifier_value e T = None <->
  (forall qs, Event.qualifiers e = Some qs ->
              Forall (fun q => Qualifier.isinstance q T = false) qs).
Proof.
  rewrite get_qualifier_value_unfold. split.
  - intros H qs Hqs. rewrite Hqs in H.
    apply first_qualifier_value_none_inv, H.
  - intros H. destruct (Event.qualifiers e) as [qs|]; [|reflexivity].
    apply first_qualifier_value_none, H. reflexivity.
Qed.

Lemma get_qualifier_value_none_iff_witness :
  Event.get_qualifier_value Sample.free_kick Qualifier.CardQualifier_cls = None.
Proof.
  apply (proj2 (get_qualifier_value_none_iff Sample.free_kick
                  Qualifier.CardQualifier_cls)).
  intros qs Hqs. inversion Hqs; subst. repeat constructor.
Defined.

(** ** The class hierarchy of the qualifiers *)

Lemma issubclass_refl c : Qualifier.issubclass c c = true.
Proof. destruct c; reflexivity. Qed.

Lemma issubclass_trans c d f :
  Qualifier.issubclass c d = true -> Qualifier.issubclass d f = true ->
  Qualifier.issubclass c f = true.
Proof. destruct c, d, f; vm_compute; intros; congruence. Qed.

Lemma issubclass_root c : Qualifier.issubclass c Qualifier.Qualifier_cls = true.
Proof. destruct c; reflexivity. Qed.

Lemma first_qualifier_value_wider qs T T' v :
  Qualifier.issubclass T T' = true ->
  Event.first_qualifier_value qs T = Some v ->
  exists v', Event.first_qualifier_value qs T' = Some v'.
Proof.
  intros Hsub. induction qs as [|q qs IH]; cbn [Event.first_qualifier_value];
    [discriminate|].
  destruct (Qualifier.isinstance q T') eqn:Hq'; [eauto|].
  destruct (Qualifier.isinstance q T) eqn:Hq; [|exact IH].
  unfold Qualifier.isinstance in *.
  rewrite (issubclass_trans _ _ _ Hq Hsub) in Hq'. discriminate.
Qed.

(** X3. The qualifier classes form a hierarchy with root [Qualifier]:
    [issubclass] is reflexive, transitive and antisymmetric, and every
    qualifier is an instance of [Qualifier]. So a query for [Qualifier]
    returns the value of the first qualifier of the list, and a query
    for a base class of [T] finds a value whenever the query for [T]
    does. *)
Theorem qualifier_hierarchy (e : Event.t) :
  (forall c, Qualifier.issubclass c c = true)
  /\ (forall c d f,
        Qualifier.issubclass c d = true -> Qualifier.issubclass d f = true ->
        Qualifier.issubclass c f = true)
  /\ (forall c d,
        Qualifier.issubclass c d = true -> Qualifier.issubclass d c = true ->
        c = d)
  /\ (forall q, Qualifier.isinstance q Qualifier.Qualifier_cls = true)
  /\ Event.get_qualifier_value e Qualifier.Qualifier_cls
     = Qualifier.value <$> (Event.qualifiers e ≫= head)
  /\ (forall T T' v,
        Qualifier.issubclass T T' = true ->
        Event.get_qualifier_value e T = Some v ->
        exists v', Event.get_qualifier_value e T' = Some v').
Proof.
  split; [exact issubclass_refl|]. split; [exact issubclass_trans|].
  split; [intros c d; destruct c, d; vm_compute; intros; congruence|].
  split; [intros q; apply issubclass_root|]. split.
  - rewrite get_qualifier_value_unfold.
    destruct (Event.qualifiers e) as [[|q qs]|]; cbn; try reflexivity.
    unfold Qualifier.isinstance. rewrite issubclass_root. reflexivity.
  - intros T T' v Hsub. rewrite !get_qualifier_value_unfold.
    destruct (Event.qualifiers e) as [qs|]; [|discriminate].
    apply first_qualifier_value_wider, Hsub.
Qed.

Lemma qualifier_hierarchy_witness :
  exists v',
    Event.get_qualifier_value Sample.free_kick Qualifier.EnumQualifier_cls
    = Some v'.
Proof.
  apply (proj2 (proj2 (proj2 (proj2 (proj2
           (qualifier_hierarchy Sample.free_kick)))))
           Qualifier.SetPieceQualifier_cls Qualifier.EnumQualifier_cls
           (Qualifier.VSetPiece SetPieceType.FREE_KICK)).
  - reflexivity.
  - reflexivity.
Defined.

(** ** String filters, exactly *)

Lemma getitem_In {A} (members : list (string * A)) name a :
  getitem members name = Some a -> In (name, a) members.
Proof.
  unfold getitem. induction members as [|[n0 a0] ms IH]; cbn; [discriminate|].
  destruct (String.eqb n0 name) eqn:Hn.
  - cbn. intros H. inversion H; subst. apply String.eqb_eq in Hn. subst.
    left. reflexivity.
  - intros H. right. apply IH, H.
Qed.

Lemma class_getitem_name own :
  ResultType.class_getitem own (ResultType_name own) = Some own.
Proof. destruct own as [[]|[]|[]|[]]; reflexivity. Qed.

Lemma class_getitem_inv own r wanted :
  ResultType.class_getitem own r = Some wanted -> r = ResultType_name wanted.
Proof.
  destruct own; cbn [ResultType.class_getitem]; intros H;
    apply fmap_Some in H as (m & Hm & ->); apply getitem_In in Hm;
    cbn in Hm; repeat (destruct Hm as [Hm|Hm]; [inversion Hm; reflexivity|]);
    contradiction.
Qed.

Lemma ResultType_name_truthy own : Str.truthy (ResultType_name own) = true.
Proof. destruct own as [[]|[]|[]|[]]; reflexivity. Qed.

Lemma truthy_false s : Str.truthy s = false -> s = "".
Proof. destruct s; [reflexivity|discriminate]. Qed.

Lemma check_result_true e r :
  Event.check_result e (Some r) = true <->
  (r = "" \/ exists own, Event.result e = Some own /\ r = ResultType_name own).
Proof.
  unfold Event.check_result. split.
  - destruct (Str.truthy r) eqn:Hr; [|left; apply truthy_false, Hr].
    destruct (Event.result e) as [own|]; [|discriminate].
    destruct (ResultType.class_getitem own r) as [wanted|] eqn:Hget;
      [|discriminate].
    intros H. apply bool_decide_eq_true_1 in H. subst wanted.
    right. exists own. split; [reflexivity|].
    eapply class_getitem_inv, Hget.
  - intros [-> | (own & -> & ->)]; [reflexivity|].
    rewrite ResultType_name_truthy, class_getitem_name.
    apply bool_decide_eq_true_2. reflexivity.
Qed.

Lemma check_event_type_true e et :
  Event.check_event_type e et = Ok true <->
  (et = "" \/ getitem EventType.members et = Some (Event.event_type e)).
Proof.
  unfold Event.check_event_type. split.
  - destruct (Str.truthy et) eqn:Het; [|left; apply truthy_false, Het].
    destruct (getitem EventType.members et) as [ty|]; [|discriminate].
    intros H. inversion H as [Hd]. apply bool_decide_eq_true_1 in Hd.
    right. congruence.
  - intros [-> | H]; [reflexivity|].
    destruct (Str.truthy et); [|reflexivity].
    rewrite H. rewrite bool_decide_eq_true_2 by reflexivity. reflexivity.
Qed.

Lemma check_event_type_raises e et x :
  Event.check_event_type e et = Raise x <->
  (x = InvalidFilterError /\ et <> "" /\ getitem EventType.members et = None).
Proof.
  unfold Event.check_event_type. split.
  - destruct (Str.truthy et) eqn:Het; [|discriminate].
    destruct (getitem EventType.members et) as [ty|]; [discriminate|].
    intros H. inversion H. split; [reflexivity|]. split; [|reflexivity].
    intros ->. discriminate Het.
  - intros (-> & Hne & Hnone).
    rewrite (truthy_nonempty _ Hne), Hnone. reflexivity.
Qed.

(** The body of [matches] for a string filter, on its list of parts. *)
Lemma matches_on_parts e s :
  Event.matches e (Event.FilterStr s)
  = let* (event_type_, result_) :=
      Event.filter_parts (Str.split "."%char (Str.upper s)) in
    let* same_type := Event.check_event_type e event_type_ in
    if negb same_type then Ok (Some false)
    else Ok (Some (Event.check_result e result_)).
Proof. reflexivity. Qed.

(** X4. A string filter written in ASCII matches an event exactly when
    it has one or two parts, its event-type part is empty or names the
    event type of the event, and its result part is missing, empty, or
    the name of the result that the event has. *)
Theorem matches_accepts_iff (e : Event.t) (s : string) :
  is_ascii s = true ->
  Event.matches e (Event.FilterStr s) = Ok (Some true) <->
  exists et r,
    (Str.split "."%char (Str.upper s) = [et] /\ r = ""
     \/ Str.split "."%char (Str.upper s) = [et; r])
    /\ (et = "" \/ getitem EventType.members et = Some (Event.event_type e))
    /\ (r = "" \/ exists own, Event.result e = Some own
                              /\ r = ResultType_name own).
Proof.
  intros _. rewrite matches_on_parts.
  destruct (Str.split "."%char (Str.upper s)) as [|a [|b [|c l]]];
    cbn [Event.filter_parts obind].
  - split; [discriminate|]. intros (et & r & [[H _]|H] & _); discriminate.
  - split.
    + destruct (Event.check_event_type e a) as [[]|] eqn:Hty;
        cbn; try discriminate.
      intros _. exists a, "". split; [left; auto|].
      split; [apply check_event_type_true, Hty|left; reflexivity].
    + intros (et & r & [[H _]|H] & Hty & _); inversion H; subst.
      apply check_event_type_true in Hty. rewrite Hty. reflexivity.
  - split.
    + destruct (Event.check_event_type e a) as [[]|] eqn:Hty;
        cbn [obind negb]; try discriminate.
      intros H. inversion H as [Hres]. exists a, b. split; [right; auto|].
      split; [apply check_event_type_true, Hty|].
      apply check_result_true, Hres.
    + intros (et & r & [[H _]|H] & Hty & Hres); inversion H; subst.
      apply check_event_type_true in Hty. rewrite Hty. cbn [obind negb].
      apply check_result_true in Hres. rewrite Hres. reflexivity.
  - split; [discriminate|]. intros (et & r & [[H _]|H] & _); discriminate.
Qed.

(** The filter [.complete] has an empty event-type part: it matches the
    completed pass of the sample data on its result alone. *)
Lemma matches_accepts_iff_witness :
  Event.matches (Sample.complete_pass "p") (Event.FilterStr ".complete")
  = Ok (Some true).
Proof.
  apply (proj2 (matches_accepts_iff (Sample.complete_pass "p") ".complete"
                  eq_refl)).
  exists "", "COMPLETE". split; [right; reflexivity|].
  split; [left; reflexivity|].
  right. eexists. split; reflexivity.
Defined.

(** X5. A string filter written in ASCII raises only
    [InvalidFilterError], and exactly
    when it has more than two parts (two dots or more) or its event-type
    part is not empty and names no event type. The condition does not
    mention the event: a filter is valid or invalid for all events
    alike, and the result part never makes it invalid. A string filter
    that does not raise returns a boolean, never [None]. *)
Theorem matches_raises_iff (e : Event.t) (s : string) (x : exn) :
  is_ascii s = true ->
  (Event.matches e (Event.FilterStr s) = Raise x <->
   x = InvalidFilterError
   /\ (2 <= Str.count "."%char s
       \/ exists et, head (Str.split "."%char (Str.upper s)) = Some et
                     /\ et <> ""
                     /\ getitem EventType.members et = None))
  /\ Event.matches e (Event.FilterStr s) <> Ok None.
Proof.
  intros _.
  assert (Hlen := split_length "."%char (Str.upper s)).
  rewrite count_upper_dot in Hlen.
  rewrite matches_on_parts.
  destruct (Str.split "."%char (Str.upper s)) as [|a [|b [|c l]]];
    cbn [Event.filter_parts obind length head] in *.
  - discriminate Hlen.
  - split.
    + split.
      * destruct (Event.check_event_type e a) as [[]|y] eqn:Hty;
          cbn; try discriminate.
        intros H. inversion H; subst y.
        apply check_event_type_raises in Hty as (-> & Hne & Hnone).
        split; [reflexivity|]. right. exists a. auto.
      * intros [-> [Hdots | (et & Het & Hne & Hnone)]]; [lia|].
        inversion Het; subst et.
        rewrite (proj2 (check_event_type_raises e a InvalidFilterError));
          auto.
    + destruct (Event.check_event_type e a) as [[]|y]; cbn; discriminate.
  - split.
    + split.
      * destruct (Event.check_event_type e a) as [[]|y] eqn:Hty;
          cbn; try discriminate.
        intros H. inversion H; subst y.
        apply check_event_type_raises in Hty as (-> & Hne & Hnone).
        split; [reflexivity|]. right. exists a. auto.
      * intros [-> [Hdots | (et & Het & Hne & Hnone)]]; [lia|].
        inversion Het; subst et.
        rewrite (proj2 (check_event_type_raises e a InvalidFilterError));
          auto.
    + destruct (Event.check_event_type e a) as [[]|y]; cbn; discriminate.
  - split; [|discriminate]. split.
    + intros H. inversion H. split; [reflexivity|]. left. lia.
    + intros [-> _]. reflexivity.
Qed.

(** A filter with an unknown result part is valid: on a pass,
    [pass.nonsense] does not raise; [tackle] does. *)
Lemma matches_raises_iff_witness :
  Event.matches (Sample.bare_pass "p") (Event.FilterStr "tackle")
  = Raise InvalidFilterError
  /\ Event.matches (Sample.bare_pass "p") (Event.FilterStr "pass.nonsense")
     <> Raise InvalidFilterError.
Proof.
  split.
  - apply (proj1 (matches_raises_iff (Sample.bare_pass "p") "tackle"
                    InvalidFilterError eq_refl)).
    split; [reflexivity|]. right. exists "TACKLE".
    split; [reflexivity|]. split; [discriminate|reflexivity].
  - intros H.
    apply (proj1 (matches_raises_iff (Sample.bare_pass "p") "pass.nonsense"
                    InvalidFilterError eq_refl)) in H.
    destruct H as [_ [H | (et & Het & _ & Hnone)]].
    + vm_compute in H. lia.
    + inversion Het; subst et. discriminate Hnone.
Defined.

(** X6. Every event matches the filter made of the value of its own
    event type, and, when it has a result, the filter made of that
    value, a dot and the printed result. This holds for generic events
    too, whose type has the lower-case value [generic]. *)
Theorem matches_own_type_and_result (e : Event.t) :
  Event.matches e (Event.FilterStr (EventType_value (Event.event_type e)))
  = Ok (Some true)
  /\ forall own,
       Event.result e = Some own ->
       Event.matches e
         (Event.FilterStr (EventType_value (Event.event_type e)
                           ++ "." ++ ResultType_str own))
       = Ok (Some true).
Proof.
  destruct e as [? ? ? ? ? ? ? ? res ? ? ? ? k]. split.
  - destruct k; reflexivity.
  - intros own H. cbn in H. subst res.
    destruct k; destruct own as [[]|[]|[]|[]]; reflexivity.
Qed.

Lemma matches_own_type_and_result_witness :
  Event.matches (Scenario.goal "g")
    (Event.FilterStr (EventType_value (Event.event_type (Scenario.goal "g"))
                      ++ "." ++ ResultType_str (ResultType.Shot ShotResult.GOAL)))
  = Ok (Some true).
Proof.
  apply (proj2 (matches_own_type_and_result (Scenario.goal "g"))).
  reflexivity.
Defined.

(** X7. Looking an event type up by its upper-cased value returns it,
    for every member; looking it up by the value as it is fails for
    [GENERIC] alone. Looking a result up in its own class by its printed
    form returns it. *)
Theorem enum_lookup_by_value :
  (forall t, getitem EventType.members (Str.upper (EventType_value t)) = Some t)
  /\ (forall t, getitem EventType.members (EventType_value t) = Some t
                <-> t <> EventType.GENERIC)
  /\ (forall r, ResultType.class_getitem r (ResultType_str r) = Some r)
  /\ (forall r name m,
        ResultType.class_getitem r name = Some m -> ResultType_str m = name).
Proof.
  split; [intros []; reflexivity|]. split.
  - intros []; split; try reflexivity; try discriminate; congruence.
  - split; [exact class_getitem_name|].
    intros r name m H. symmetry. eapply class_getitem_inv, H.
Qed.

(** ** Related events, further *)

Lemma omapM_app_raise {A B} (f : A -> outcome B) (l1 : list A) a l2 x :
  Forall (fun a' => exists b, f a' = Ok b) l1 ->
  f a = Raise x ->
  omapM f (l1 ++ a :: l2) = Raise x.
Proof.
  intros Hl1 Ha. induction Hl1 as [|a' l1 [b Hb] _ IH]; cbn [app omapM].
  - rewrite Ha. reflexivity.
  - rewrite Hb. cbn [obind]. rewrite IH. reflexivity.
Qed.

Lemma omapM_raise_inv {A B} (f : A -> outcome B) (l : list A) x :
  omapM f l = Raise x ->
  exists l1 a l2,
    l = l1 ++ a :: l2
    /\ Forall (fun a' => exists b, f a' = Ok b) l1
    /\ f a = Raise x.
Proof.
  induction l as [|a0 l IH]; cbn [omapM]; [discriminate|].
  destruct (f a0) as [b|y] eqn:H0; cbn [obind].
  - destruct (omapM f l) as [bs|y] eqn:Hl; cbn [obind]; [discriminate|].
    intros H. inversion H; subst y.
    destruct (IH eq_refl) as (l1 & a & l2 & -> & Hl1 & Ha).
    exists (a0 :: l1), a, l2. split; [reflexivity|].
    split; [constructor; eauto|exact Ha].
  - intros H. inversion H; subst y. exists [], a0, l.
    split; [reflexivity|]. split; [constructor|exact H0].
Qed.

(** X8. For an event attached to a dataset, [get_related_events] raises
    exactly when the lookup of one of its related identifiers raises,
    and it raises what the first such lookup raises: the identifiers
    before it are looked up successfully and the ones after it are not
    reached. *)
Theorem get_related_events_raises_iff
    (dataset_bool : addr -> bool)
    (get_record_by_id : addr -> string -> outcome Event.t)
    (e : Event.t) (d : addr) (x : exn) :
  Event.dataset e = Some d ->
  dataset_bool d = true ->
  (Event.get_related_events dataset_bool get_record_by_id e = Raise x <->
   exists ids1 event_id ids2,
     Event.related_event_ids e = ids1 ++ event_id :: ids2
     /\ Forall (fun i => exists r, get_record_by_id d i = Ok r) ids1
     /\ get_record_by_id d event_id = Raise x).
Proof.
  intros Hd Htrue. unfold Event.get_related_events. rewrite Hd, Htrue.
  cbn [negb]. split.
  - apply omapM_raise_inv.
  - intros (ids1 & event_id & ids2 & -> & Hids1 & Hx).
    apply (omapM_app_raise (get_record_by_id d)); assumption.
Qed.

(** The sample lookup knows [a] and [b] only: with the related
    identifiers [b], [c], [a] the lookup of [c] raises. *)
Lemma get_related_events_raises_iff_witness :
  Event.get_related_events (fun _ => true) Sample.lookup
    (Sample.with_relations (Some 0) ["b"; "c"; "a"] (Sample.bare_pass "p"))
  = Raise OrphanedRecordError.
Proof.
  apply (proj2 (get_related_events_raises_iff (fun _ => true) Sample.lookup
                  (Sample.with_relations (Some 0) ["b"; "c"; "a"]
                     (Sample.bare_pass "p"))
                  0 OrphanedRecordError eq_refl eq_refl)).
  exists ["b"], "c", ["a"]. split; [reflexivity|].
  split; [|reflexivity].
  constructor; [eexists; reflexivity|constructor].
Defined.

Lemma first_of_type_some related t r :
  first_of_type related t = Some r ->
  exists l1 l2,
    related = l1 ++ r :: l2
    /\ Event.event_type r = t
    /\ Forall (fun r' => Event.event_type r' <> t) l1.
Proof.
  induction related as [|r0 rest IH]; cbn [first_of_type]; [discriminate|].
  destruct (bool_decide (Event.event_type r0 = t)) eqn:H0.
  - intros H. inversion H; subst. apply bool_decide_eq_true_1 in H0.
    exists [], rest. auto.
  - intros H. apply bool_decide_eq_false_1 in H0.
    destruct (IH H) as (l1 & l2 & -> & Hr & Hl1).
    exists (r0 :: l1), l2. auto.
Qed.

Lemma first_of_type_none related t :
  first_of_type related t = None <->
  Forall (fun r' => Event.event_type r' <> t) related.
Proof.
  induction related as [|r0 rest IH]; cbn [first_of_type].
  - split; [constructor|reflexivity].
  - destruct (bool_decide (Event.event_type r0 = t)) eqn:H0.
    + apply bool_decide_eq_true_1 in H0. split; [discriminate|].
      intros H. inversion H; subst. contradiction.
    + apply bool_decide_eq_false_1 in H0. rewrite IH. split.
      * intros H. constructor; assumption.
      * intros H. inversion H; assumption.
Qed.

Lemma first_of_type_app l1 r l2 t :
  Event.event_type r = t ->
  Forall (fun r' => Event.event_type r' <> t) l1 ->
  first_of_type (l1 ++ r :: l2) t = Some r.
Proof.
  intros Hr Hl1. induction Hl1 as [|r0 l1 H0 _ IH]; cbn [app first_of_type].
  - rewrite bool_decide_eq_true_2 by exact Hr. reflexivity.
  - rewrite bool_decide_eq_false_2 by exact H0. exact IH.
Qed.

(** X9. [get_related_event] resolves a string argument, written in
    ASCII, by upper-casing it and looking the name up; an unknown name
    is a [KeyError], raised
    before the related events are fetched, hence for a detached event
    too. With a known type, an error of [get_related_events] is passed
    on; otherwise the result is the first related event of that type,
    and [None] exactly when no related event has that type. *)
Theorem get_related_event_spec
    (dataset_bool : addr -> bool)
    (get_record_by_id : addr -> string -> outcome Event.t)
    (e : Event.t) :
  (forall s,
      is_ascii s = true ->
      getitem EventType.members (Str.upper s) = None ->
      get_related_event dataset_bool get_record_by_id e (TypeName s)
      = Throw (Builtin KeyError))
  /\ (forall s t,
        is_ascii s = true ->
        getitem EventType.members (Str.upper s) = Some t ->
        get_related_event dataset_bool get_record_by_id e (TypeName s)
        = get_related_event dataset_bool get_record_by_id e (TypeMember t))
  /\ (forall t x,
        Event.get_related_events dataset_bool get_record_by_id e = Raise x ->
        get_related_event dataset_bool get_record_by_id e (TypeMember t)
        = Throw (Kloppy x))
  /\ (forall t related,
        Event.get_related_events dataset_bool get_record_by_id e = Ok related ->
        (forall r,
            get_related_event dataset_bool get_record_by_id e (TypeMember t)
            = Return (Some r) <->
            exists l1 l2,
              related = l1 ++ r :: l2
              /\ Event.event_type r = t
              /\ Forall (fun r' => Event.event_type r' <> t) l1)
        /\ (get_related_event dataset_bool get_record_by_id e (TypeMember t)
            = Return None <->
            Forall (fun r' => Event.event_type r' <> t) related)).
Proof.
  unfold get_related_event. split; [|split; [|split]].
  - intros s _ Hs. cbn [resolve_type_arg]. rewrite Hs. reflexivity.
  - intros s t _ Hs. cbn [resolve_type_arg]. rewrite Hs. reflexivity.
  - intros t x Hx. cbn [resolve_type_arg rbind]. rewrite Hx. reflexivity.
  - intros t related Hrel. cbn [resolve_type_arg rbind]. rewrite Hrel.
    cbn [of_outcome rbind]. split.
    + intros r. split.
      * intros H. inversion H as [Hfind]. apply first_of_type_some, Hfind.
      * intros (l1 & l2 & -> & Hr & Hl1). f_equal.
        apply first_of_type_app; assumption.
    + rewrite <- first_of_type_none. split.
      * intros H. inversion H. reflexivity.
      * intros ->. reflexivity.
Qed.

(** The pass of the sample data related to [a] (a pass without result)
    and [b] (a completed pass): asking for the related pass by the name
    [pass] gives [a], the first of the two. *)
Lemma get_related_event_spec_witness :
  get_related_event (fun _ => true) Sample.lookup
    (Sample.with_relations (Some 0) ["a"; "b"] (Sample.bare_pass "p"))
    (TypeName "pass")
  = Return (Some (Sample.bare_pass "a"))
  /\ get_related_event (fun _ => true) Sample.lookup
       (Sample.with_relations None ["a"; "b"] (Sample.bare_pass "p"))
       (TypeName "dribble")
     = Throw (Builtin KeyError).
Proof.
  split.
  - rewrite (proj1 (proj2 (get_related_event_spec (fun _ => true) Sample.lookup
               (Sample.with_relations (Some 0) ["a"; "b"] (Sample.bare_pass "p"))))
               "pass" EventType.PASS eq_refl eq_refl).
    apply (proj1 (proj2 (proj2 (proj2
             (get_related_event_spec (fun _ => true) Sample.lookup
                (Sample.with_relations (Some 0) ["a"; "b"] (Sample.bare_pass "p")))))
             EventType.PASS [Sample.bare_pass "a"; Sample.complete_pass "b"]
             eq_refl)).
    exists [], [Sample.complete_pass "b"].
    split; [reflexivity|]. split; [reflexivity|constructor].
  - apply (proj1 (get_related_event_spec (fun _ => true) Sample.lookup
             (Sample.with_relations None ["a"; "b"] (Sample.bare_pass "p")))).
    + reflexivity.
    + reflexivity.
Defined.

Lemma get_related_event_member dataset_bool get_record_by_id e t r :
  get_related_event dataset_bool get_record_by_id e (TypeMember t)
  = Return (Some r) ->
  Event.event_type r = t.
Proof.
  unfold get_related_event. cbn [resolve_type_arg rbind].
  destruct (Event.get_related_events _ _ e) as [related|x];
    cbn [of_outcome rbind]; [|discriminate].
  intros H. inversion H as [Hfind].
  apply first_of_type_some in Hfind as (_ & _ & _ & Hr & _). exact Hr.
Qed.

Lemma get_related_event_detached dataset_bool get_record_by_id e t :
  Event.dataset e = None ->
  get_related_event dataset_bool get_record_by_id e (TypeMember t)
  = Throw (Kloppy OrphanedRecordError).
Proof.
  intros H. unfold get_related_event, Event.get_related_events.
  rewrite H. reflexivity.
Qed.

(** X10. Each of the twelve [related_*] methods returns, if an event at
    all, an event of the type in its name, and raises
    [OrphanedRecordError] on an event that is attached to no dataset. *)
Theorem related_methods_spec
    (dataset_bool : addr -> bool)
    (get_record_by_id : addr -> string -> outcome Event.t)
    (e : Event.t) :
  Forall
    (fun mt : (Event.t -> result (option Event.t)) * EventType.t =>
       (forall r, fst mt e = Return (Some r) -> Event.event_type r = snd mt)
       /\ (Event.dataset e = None ->
           fst mt e = Throw (Kloppy OrphanedRecordError)))
    [(related_pass dataset_bool get_record_by_id, EventType.PASS);
     (related_shot dataset_bool get_record_by_id, EventType.SHOT);
     (related_take_on dataset_bool get_record_by_id, EventType.TAKE_ON);
     (related_carry dataset_bool get_record_by_id, EventType.CARRY);
     (related_substitution dataset_bool get_record_by_id,
      EventType.SUBSTITUTION);
     (related_card dataset_bool get_record_by_id, EventType.CARD);
     (related_player_on dataset_bool get_record_by_id, EventType.PLAYER_ON);
     (related_player_off dataset_bool get_record_by_id, EventType.PLAYER_OFF);
     (related_recovery dataset_bool get_record_by_id, EventType.RECOVERY);
     (related_ball_out dataset_bool get_record_by_id, EventType.BALL_OUT);
     (related_foul_committed dataset_bool get_record_by_id,
      EventType.FOUL_COMMITTED);
     (related_formation_change dataset_bool get_record_by_id,
      EventType.FORMATION_CHANGE)].
Proof.
  repeat (constructor;
          [split; cbn [fst snd];
           [intros r; apply get_related_event_member
           |apply get_related_event_detached]|]).
  constructor.
Qed.

(** ** [Event.create] *)

Section CreateProperties.

Context {Any Instance : Type}.
Variables (empty_dict empty_list : Any).
Variable cls : gmap string Any -> result Instance.

(** X11. [create] raises a [TypeError] without calling the constructor
    when the caller passes [state]. Otherwise the constructor is called
    with a dictionary in which [state] is the empty dictionary,
    [related_event_ids] is the caller's value or else the empty list,
    and every other keyword is as the caller gave it. *)
Theorem create_spec (kwargs : gmap string Any) :
  (is_Some (kwargs !! "state") ->
   create Any empty_dict empty_list Instance cls kwargs
   = Throw (Builtin TypeError))
  /\ (kwargs !! "state" = None ->
      exists d : gmap string Any,
        create Any empty_dict empty_list Instance cls kwargs = cls d
        /\ d !! "state" = Some empty_dict
        /\ d !! "related_event_ids"
           = Some (default empty_list (kwargs !! "related_event_ids"))
        /\ forall k, k <> "state" -> k <> "related_event_ids" ->
                     d !! k = kwargs !! k).
Proof using Type.
  unfold create, call_with_both, extra_kwargs. split.
  - intros [v Hv]. rewrite bool_decide_eq_false_2; [reflexivity|].
    destruct (bool_decide (is_Some (kwargs !! "related_event_ids"))).
    + rewrite map_disjoint_singleton_r. congruence.
    + rewrite map_disjoint_insert_r, map_disjoint_singleton_r.
      intros [_ H]. congruence.
  - intros Hstate.
    destruct (kwargs !! "related_event_ids") as [ids|] eqn:Hids.
    + rewrite (bool_decide_eq_true_2 (is_Some (Some ids))) by eauto.
      rewrite bool_decide_eq_true_2
        by (apply map_disjoint_singleton_r; exact Hstate).
      eexists. split; [reflexivity|]. split; [|split].
      * rewrite lookup_union_r by exact Hstate. apply lookup_singleton_eq.
      * rewrite lookup_union_l by (apply lookup_singleton_ne; discriminate).
        rewrite Hids. reflexivity.
      * intros k Hk _. apply lookup_union_l.
        apply lookup_singleton_ne. congruence.
    + rewrite (bool_decide_eq_false_2 (is_Some None))
        by (intros [? ?]; discriminate).
      rewrite bool_decide_eq_true_2.
      2:{ apply map_disjoint_insert_r. split; [exact Hids|].
          apply map_disjoint_singleton_r; exact Hstate. }
      eexists. split; [reflexivity|]. split; [|split].
      * rewrite lookup_union_r by exact Hstate.
        rewrite lookup_insert_ne by discriminate. apply lookup_singleton_eq.
      * rewrite lookup_union_r by exact Hids.
        rewrite lookup_insert_eq. reflexivity.
      * intros k Hk Hk'. apply lookup_union_l.
        rewrite lookup_insert_ne by congruence.
        apply lookup_singleton_ne. congruence.
Qed.

End CreateProperties.

(** A constructor that returns its keyword arguments, called through
    [create] with an identifier only. *)
Lemma create_spec_witness :
  exists d : gmap string string,
    create string "{}" "[]" (gmap string string) Return {[ "event_id" := "7" ]}
    = Return d
    /\ d !! "state" = Some "{}"
    /\ d !! "related_event_ids"
       = Some (default "[]"
                 (({[ "event_id" := "7" ]} : gmap string string)
                    !! "related_event_ids"))
    /\ forall k, k <> "state" -> k <> "related_event_ids" ->
                 d !! k = ({[ "event_id" := "7" ]} : gmap string string) !! k.
Proof.
  apply (proj2 (create_spec "{}" "[]" Return {[ "event_id" := "7" ]})).
  reflexivity.
Defined.

Lemma related_methods_spec_witness :
  Event.event_type (Sample.bare_pass "a") = EventType.PASS.
Proof.
  apply (proj1 (Forall_inv
                  (related_methods_spec (fun _ => true) Sample.lookup
                     (Sample.with_relations (Some 0) ["a"; "b"]
                        (Sample.bare_pass "p"))))).
  reflexivity.
Defined.

(** ** The rows of [to_pandas] *)

Section ToPandasProperties.

Context {Any : Type}.

Lemma update_row_other (row : gmap string Any) items event row' k :
  update_row Any row items event = Return row' ->
  ~ In k (fst <$> items) ->
  row' !! k = row !! k.
Proof using Type.
  revert row. induction items as [|[k0 v0] items IH]; intros row;
    cbn [update_row fmap list_fmap fst].
  - intros H _. inversion H. reflexivity.
  - destruct (column_value Any v0 event) as [a|x]; cbn [rbind]; [|discriminate].
    intros H Hk. rewrite (IH _ H).
    + apply lookup_insert_ne. intros ->. apply Hk. left. reflexivity.
    + intros Hin. apply Hk. right. exact Hin.
Qed.

Lemma update_row_column (row : gmap string Any) items event row' k v :
  update_row Any row items event = Return row' ->
  NoDup (fst <$> items) ->
  In (k, v) items ->
  exists a, column_value Any v event = Return a /\ row' !! k = Some a.
Proof using Type.
  revert row. induction items as [|[k0 v0] items IH]; intros row;
    cbn [update_row fmap list_fmap fst]; [intros _ _ []|].
  destruct (column_value Any v0 event) as [a|x] eqn:Hv0; cbn [rbind];
    [|discriminate].
  intros H Hnd [Heq|Hin].
  - inversion Heq; subst k0 v0. exists a. split; [exact Hv0|].
    apply NoDup_cons in Hnd as [Hnotin _].
    rewrite (update_row_other _ _ _ _ k H).
    + apply lookup_insert_eq.
    + intros Hin. apply Hnotin. apply list_elem_of_In. exact Hin.
  - apply NoDup_cons in Hnd as [_ Hnd]. eapply IH; eassumption.
Qed.

Lemma rmapM_Forall2 {A B} (f : A -> result B) (l : list A) (bs : list B) :
  rmapM f l = Return bs <-> Forall2 (fun a b => f a = Return b) l bs.
Proof using Type.
  revert bs. induction l as [|a l IH]; intros bs; cbn [rmapM].
  - split.
    + intros H. inversion H. constructor.
    + intros H. inversion H. reflexivity.
  - split.
    + destruct (f a) as [b|] eqn:Hfa; cbn [rbind]; [|discriminate].
      destruct (rmapM f l) as [bs'|] eqn:Hl; cbn [rbind]; [|discriminate].
      intros H. inversion H; subst. constructor; [exact Hfa|].
      apply IH. reflexivity.
    + intros H. inversion H as [|a' b l' bs' Hfa Hrest]; subst.
      rewrite Hfa. cbn [rbind].
      apply IH in Hrest. rewrite Hrest. reflexivity.
Qed.

(** X12. Without pandas, [to_pandas] raises [ImportError] whatever its
    arguments. With pandas, when it returns, the data frame is built
    from one row per record, in the order of the records. Each row
    starts as the row of the record converter (the default one when
    none is given); every additional column (its keys being distinct,
    as in a dictionary) then holds the value of its callable at the
    record, or its constant, also when the converter had a column of
    that name; every other column is as the converter left it. *)
Theorem to_pandas_spec (DataFrame : Type)
    (DefaultTransformer : Event.t -> result (gmap string Any))
    (self : EventDataset.t)
    (record_converter : option (Event.t -> result (gmap string Any)))
    (additional_columns : option (list (string * column Any))) :
  to_pandas Any DataFrame None DefaultTransformer self record_converter
    additional_columns
  = Throw (Builtin ImportError)
  /\ forall from_records df,
       NoDup (fst <$> default [] additional_columns) ->
       to_pandas Any DataFrame (Some from_records) DefaultTransformer self
         record_converter additional_columns
       = Return df ->
       exists rows,
         df = from_records rows
         /\ Forall2
              (fun event row =>
                 exists row0,
                   default DefaultTransformer record_converter event
                   = Return row0
                   /\ (forall k,
                         ~ In k (fst <$> default [] additional_columns) ->
                         row !! k = row0 !! k)
                   /\ (forall k v,
                         In (k, v) (default [] additional_columns) ->
                         exists a, column_value Any v event = Return a
                                   /\ row !! k = Some a))
              (EventDataset.records self) rows.
Proof using Type.
  split; [reflexivity|].
  intros from_records df Hnd. unfold to_pandas.
  destruct (rmapM _ (EventDataset.records self)) as [rows|x] eqn:Hrows;
    cbn [rbind]; [|discriminate].
  intros H. inversion H; subst df. exists rows. split; [reflexivity|].
  apply rmapM_Forall2 in Hrows.
  eapply Forall2_impl; [exact Hrows|].
  intros event row. unfold generic_record_converter.
  destruct (default DefaultTransformer record_converter event) as [row0|y];
    cbn [rbind]; [|discriminate].
  intros Hrow. exists row0. split; [reflexivity|].
  destruct additional_columns as [[|item items]|]; cbn [default] in *.
  - inversion Hrow; subst. split; [reflexivity|]. intros k v [].
  - split.
    + intros k Hk. eapply update_row_other; eassumption.
    + intros k v Hin. eapply update_row_column; eassumption.
  - inversion Hrow; subst. split; [reflexivity|]. intros k v [].
Qed.

End ToPandasProperties.

(** Two records, the default converter with the columns [event_id] and
    [kind], a constant column [team] and a callable column that
    replaces [event_id]. *)
Lemma to_pandas_spec_witness :
  exists rows,
    Frames.frame = id rows
    /\ Forall2
         (fun event row =>
            exists row0,
              default Frames.converter None event = Return row0
              /\ (forall k,
                    ~ In k (fst <$> default [] (Some Frames.columns)) ->
                    row !! k = row0 !! k)
              /\ (forall k v,
                    In (k, v) (default [] (Some Frames.columns)) ->
                    exists a, column_value string v event = Return a
                              /\ row !! k = Some a))
         (EventDataset.records Frames.dataset) rows.
Proof.
  apply (proj2 (to_pandas_spec (list (gmap string string)) Frames.converter
                  Frames.dataset None (Some Frames.columns)) id Frames.frame).
  - apply (bool_decide_eq_true_1 (NoDup _)). vm_compute. reflexivity.
  - vm_compute. reflexivity.
Defined.

(** ** Successful results *)

(** X13. For an event that has a result, [is_success] of the result
    holds exactly when the event matches the filter [.goal] or the
    filter [.complete]: a shot succeeds as a goal, a pass, a take-on and
    a carry succeed when complete. *)
Theorem is_success_iff_matches (e : Event.t) (own : ResultType.t) :
  Event.result e = Some own ->
  (ResultType.is_success own = true <->
   Event.matches e (Event.FilterStr ".goal") = Ok (Some true)
   \/ Event.matches e (Event.FilterStr ".complete") = Ok (Some true)).
Proof.
  destruct e as [? ? ? ? ? ? ? ? res ? ? ? ? k]. cbn. intros ->.
  destruct own as [[]|[]|[]|[]]; vm_compute;
    (split; [intros H; try discriminate H; auto
            |intros [H|H]; try discriminate H; reflexivity]).
Qed.

Lemma is_success_iff_matches_witness :
  ResultType.is_success (ResultType.Shot ShotResult.GOAL) = true <->
  Event.matches (Scenario.goal "g") (Event.FilterStr ".goal") = Ok (Some true)
  \/ Event.matches (Scenario.goal "g") (Event.FilterStr ".complete")
     = Ok (Some true).
Proof.
  apply (is_success_iff_matches (Scenario.goal "g")). reflexivity.
Defined.

(** The name [OUT] found in the class of a pass result is the printed
    form of the member found. *)
Lemma enum_lookup_by_value_witness :
  ResultType_str (ResultType.Pass PassResult.OUT) = "OUT".
Proof.
  apply (proj2 (proj2 (proj2 enum_lookup_by_value))
           (ResultType.Pass PassResult.COMPLETE)).
  reflexivity.
Defined.
